(** * FastCalvoTrainer.run_my_task (src/fast_calvo_trainer.py)

    A shallow embedding of the Rodan wrapper around the Fast Calvo
    classifier trainer.  The wrapper reads annotation layers, builds the
    per-class ground truth ([gt]) and the per-class model paths
    ([output_models_path]), calls the external trainer once and restores
    [sys.stdout] / [sys.stderr] in a [finally] block.

    Modelling choices:
    - a Python dict is an association list with Python's lookup and
      assignment semantics ([dict_get], [dict_set]); iteration order is
      list order;
    - a numpy 2-D array is its shape together with its entry function;
      [np.logical_and] follows numpy broadcasting on the two axes;
    - a decoded image ([cv2.imread]) is its height, width, channel count
      and pixel function; [cv2.imread] returns [None] on failure;
    - the external collaborators ([cv2.imread], [logging.FileHandler]
      opening its file, the celery redirect level, the outcome of
      [train_msae] and the text it writes to [sys.stdout] /
      [sys.stderr]) are fields of an environment record [env];
    - the process-wide state (stream bindings, handlers of the module
      logger, text written to the streams, calls of the trainer) is
      threaded through a state-and-exception monad [M]. *)

From Stdlib Require Import String List ZArith Bool Lia.
Import ListNotations.
Open Scope string_scope.
Open Scope list_scope.

(** ** Python exceptions and the exception monad *)

Inductive exn : Type :=
| KeyError (k : string)
| IndexError
| TypeError
| ValueError   (* numpy: operands could not be broadcast together *)
| OSError      (* logging.FileHandler could not open its file *)
| TrainerError (* anything raised by train_msae *).

Inductive result (A : Type) : Type :=
| Ok (a : A)
| Raise (e : exn).
Arguments Ok {A} a.
Arguments Raise {A} e.

Definition rbind {A B} (r : result A) (k : A -> result B) : result B :=
  match r with
  | Ok a => k a
  | Raise e => Raise e
  end.

Notation "'let?' x ':=' c 'in' k" := (rbind c (fun x => k))
  (at level 200, x name, c at level 100, k at level 200).

(** ** Python dicts and lists *)

Definition dict (A : Type) := list (string * A).

Fixpoint dict_get {A} (d : dict A) (k : string) : option A :=
  match d with
  | [] => None
  | (k', v) :: d' => if String.eqb k k' then Some v else dict_get d' k
  end.

(** [d[k]] *)
Definition getitem {A} (d : dict A) (k : string) : result A :=
  match dict_get d k with
  | Some v => Ok v
  | None => Raise (KeyError k)
  end.

(** [d[k] = v]: an existing key keeps its place, a new key goes last. *)
Fixpoint dict_set {A} (d : dict A) (k : string) (v : A) : dict A :=
  match d with
  | [] => [(k, v)]
  | (k', v') :: d' =>
      if String.eqb k k' then (k, v) :: d' else (k', v') :: dict_set d' k v
  end.

Definition keys {A} (d : dict A) : list string := map fst d.

(** [l[0]] *)
Definition first {A} (l : list A) : result A :=
  match l with
  | x :: _ => Ok x
  | [] => Raise IndexError
  end.

(** ** numpy arrays and images *)

Record ndarray (A : Type) := mk_nd {
  nd_h : nat;
  nd_w : nat;
  nd_at : nat -> nat -> A
}.
Arguments mk_nd {A} nd_h nd_w nd_at.
Arguments nd_h {A} n.
Arguments nd_w {A} n.
Arguments nd_at {A} n _ _.

(** A decoded image: [img_px i j c] is channel [c] of pixel [(i, j)]. *)
Record image := mk_image {
  img_h : nat;
  img_w : nat;
  img_ch : nat;
  img_px : nat -> nat -> nat -> Z
}.

(** [im[:, :, c]]: an IndexError when the image has no channel [c],
    a TypeError when [im] is [None]. *)
Definition channel (im : option image) (c : nat) : result (ndarray Z) :=
  match im with
  | None => Raise TypeError
  | Some im =>
      if Nat.ltb c (img_ch im)
      then Ok (mk_nd (img_h im) (img_w im) (fun i j => img_px im i j c))
      else Raise IndexError
  end.

(** [a == v], elementwise *)
Definition nd_eq (a : ndarray Z) (v : Z) : ndarray bool :=
  mk_nd (nd_h a) (nd_w a) (fun i j => Z.eqb (nd_at a i j) v).

(** [im[:, :, 3] == 255] *)
Definition alpha_opaque (im : option image) : result (ndarray bool) :=
  let? a := channel im 3 in Ok (nd_eq a 255).

(** numpy broadcasting of one axis *)
Definition bdim (a b : nat) : option nat :=
  if Nat.eqb a b then Some a
  else if Nat.eqb a 1 then Some b
  else if Nat.eqb b 1 then Some a
  else None.

(** index into an axis of length [d] after broadcasting *)
Definition bidx (d i : nat) : nat := if Nat.eqb d 1 then 0 else i.

Definition bget (x : ndarray bool) (i j : nat) : bool :=
  nd_at x (bidx (nd_h x) i) (bidx (nd_w x) j).

(** [np.logical_and(x, y)] *)
Definition logical_and (x y : ndarray bool) : result (ndarray bool) :=
  match bdim (nd_h x) (nd_h y), bdim (nd_w x) (nd_w y) with
  | Some h, Some w => Ok (mk_nd h w (fun i j => bget x i j && bget y i j))
  | _, _ => Raise ValueError
  end.

Definition broadcastable (x y : ndarray bool) : Prop :=
  bdim (nd_h x) (nd_h y) <> None /\ bdim (nd_w x) (nd_w y) <> None.

(** ** Ports, settings and the trainer call *)

(** A Rodan resource, of which the wrapper only reads ['resource_path']. *)
Record resource := mk_resource { resource_path : string }.

(** [d[port][0]['resource_path']] *)
Definition port_path (d : dict (list resource)) (port : string) : result string :=
  let? rs := getitem d port in
  let? r := first rs in
  Ok (resource_path r).

Definition IMREAD_COLOR : Z := 1.      (* the flag [True] *)
Definition IMREAD_UNCHANGED : Z := -1.

Definition STAFF_IN := "rgba PNG - Staff Lines layer".
Definition TEXT_IN := "rgba PNG - Text".
Definition STAFF_OUT := "Staff Lines Model".
Definition TEXT_OUT := "Text Model".
Definition LOG_OUT := "Log File".

(** The keyword arguments of [training.train_msae]. *)
Record train_call := mk_call {
  tc_input_image : option image;
  tc_gt : dict (ndarray bool);
  tc_height : Z;
  tc_width : Z;
  tc_output_path : dict string;
  tc_epochs : Z;
  tc_max_samples_per_class : Z;
  tc_batch_size : Z
}.

(** The two standard streams a callee can write to. *)
Inductive std_stream : Type := StdOut | StdErr.

(** The collaborators of the wrapper. *)
Record env := mk_env {
  imread : string -> Z -> option image;
  (** [logging.FileHandler(path)] opens [path]; [false]: it raises *)
  can_open : string -> bool;
  (** [app.conf.CELERY_REDIRECT_STDOUTS_LEVEL] *)
  redirect_level : string;
  (** the outcome of [training.train_msae(...)] *)
  train_msae : train_call -> result bool;
  (** what [training.train_msae(...)] writes to [sys.stdout] /
      [sys.stderr] (prints, console logging, progress output) before it
      returns or raises *)
  train_prints : train_call -> list (std_stream * string)
}.

(** ** Lines 97-136: reading the ports, ground truth and model paths

    This part only reads the environment; it is written in the exception
    monad, statement by statement in source order. *)

(** Lines 123-126: the staff branch of the loop over [inputs]. *)
Definition staff_step (E : env) (inputs : dict (list resource))
    (regions_mask : ndarray bool) (gt : dict (ndarray bool)) (k : string)
    : result (dict (ndarray bool)) :=
  if String.eqb k STAFF_IN then
    let? p := port_path inputs STAFF_IN in
    let lines := imread E p IMREAD_UNCHANGED in
    let? lines_mask := alpha_opaque lines in
    let? m := logical_and lines_mask regions_mask in
    Ok (dict_set gt "staff" m)
  else Ok gt.

(** Lines 127-130: the text branch of the loop over [inputs]. *)
Definition text_step (E : env) (inputs : dict (list resource))
    (regions_mask : ndarray bool) (gt : dict (ndarray bool)) (k : string)
    : result (dict (ndarray bool)) :=
  if String.eqb k TEXT_IN then
    let? p := port_path inputs TEXT_IN in
    let text := imread E p IMREAD_UNCHANGED in
    let? text_mask := alpha_opaque text in
    let? m := logical_and text_mask regions_mask in
    Ok (dict_set gt "text" m)
  else Ok gt.

(** Lines 122-130: [for k in inputs: ...] *)
Fixpoint inputs_loop (E : env) (inputs : dict (list resource))
    (regions_mask : ndarray bool) (ks : list string) (gt : dict (ndarray bool))
    : result (dict (ndarray bool)) :=
  match ks with
  | [] => Ok gt
  | k :: ks' =>
      let? gt := staff_step E inputs regions_mask gt k in
      let? gt := text_step E inputs regions_mask gt k in
      inputs_loop E inputs regions_mask ks' gt
  end.

(** Lines 132-136: [for k in outputs: ...] *)
Definition outputs_step (outputs : dict (list resource)) (omp : dict string)
    (k : string) : result (dict string) :=
  let? omp :=
    if String.eqb k STAFF_OUT then
      let? p := port_path outputs STAFF_OUT in Ok (dict_set omp "staff" p)
    else Ok omp in
  if String.eqb k TEXT_OUT then
    let? p := port_path outputs TEXT_OUT in Ok (dict_set omp "text" p)
  else Ok omp.

Fixpoint outputs_loop (outputs : dict (list resource)) (ks : list string)
    (omp : dict string) : result (dict string) :=
  match ks with
  | [] => Ok omp
  | k :: ks' =>
      let? omp := outputs_step outputs omp k in
      outputs_loop outputs ks' omp
  end.

(** Lines 97-148 up to the call: the arguments passed to [train_msae]. *)
Definition prepare (E : env) (inputs : dict (list resource))
    (settings : dict Z) (outputs : dict (list resource)) : result train_call :=
  let? p_image := port_path inputs "Image" in
  let input_image := imread E p_image IMREAD_COLOR in
  let? p_background := port_path inputs "rgba PNG - Background layer" in
  let background := imread E p_background IMREAD_UNCHANGED in
  let? p_notes := port_path inputs "rgba PNG - Music symbol layer" in
  let notes := imread E p_notes IMREAD_UNCHANGED in
  let? p_regions := port_path inputs "rgba PNG - Selected regions" in
  let regions := imread E p_regions IMREAD_UNCHANGED in
  let gt : dict (ndarray bool) := [] in
  let? regions_mask := alpha_opaque regions in
  let? notes_mask := alpha_opaque notes in
  let? symbols := logical_and notes_mask regions_mask in
  let gt := dict_set gt "symbols" symbols in
  let? background_mask := alpha_opaque background in
  let gt := dict_set gt "background" background_mask in
  let? batch_size := getitem settings "Batch Size" in
  let? patch_height := getitem settings "Patch height" in
  let? patch_width := getitem settings "Patch width" in
  let? max_number_of_epochs := getitem settings "Maximum number of training epochs" in
  let? max_samples_per_class := getitem settings "Maximum number of samples per label" in
  let? p_bg_model := port_path outputs "Background Model" in
  let? p_sym_model := port_path outputs "Music Symbol Model" in
  let output_models_path := [("background", p_bg_model); ("symbols", p_sym_model)] in
  let? gt := inputs_loop E inputs regions_mask (keys inputs) gt in
  let? output_models_path := outputs_loop outputs (keys outputs) output_models_path in
  Ok (mk_call input_image gt patch_height patch_width output_models_path
        max_number_of_epochs max_samples_per_class batch_size).

(** ** Process-wide state and the state-and-exception monad *)

(** A binding of [sys.stdout] / [sys.stderr]: some stream object, or the
    celery [LoggingProxy] installed by [redirect_stdouts_to_logger]. *)
Inductive stream : Type :=
| Stream (id : nat)
| LoggingProxy (level : string).

(** A [logging.FileHandler] with its formatter string. *)
Record handler := FileHandler { h_path : string; h_format : string }.

Record st := mk_st {
  stdout : stream;
  stderr : stream;
  handlers : list handler;   (* the handlers of the module [logger] *)
  written : list (stream * string);
  calls : list train_call
}.

Definition M (A : Type) := st -> result A * st.

Definition ret {A} (a : A) : M A := fun s => (Ok a, s).

Definition bind {A B} (m : M A) (k : A -> M B) : M B :=
  fun s =>
    match m s with
    | (Ok a, s') => k a s'
    | (Raise e, s') => (Raise e, s')
    end.

Notation "x <- m ;; k" := (bind m (fun x => k))
  (at level 61, m at next level, right associativity).
Notation "m ;;; k" := (bind m (fun _ => k))
  (at level 61, right associativity).

Definition lift {A} (r : result A) : M A := fun s => (r, s).

(** [try: body finally: fin] *)
Definition try_finally {A} (body : M A) (fin : M unit) : M A :=
  fun s =>
    let (r, s1) := body s in
    match fin s1 with
    | (Ok _, s2) => (r, s2)
    | (Raise e, s2) => (Raise e, s2)
    end.

Definition get_outs : M (stream * stream) :=
  fun s => (Ok (stdout s, stderr s), s).

(** [sys.stdout, sys.stderr = outs] *)
Definition set_outs (outs : stream * stream) : M unit :=
  fun s => (Ok tt, mk_st (fst outs) (snd outs) (handlers s) (written s) (calls s)).

(** [logging.FileHandler(path)] with [setFormatter] *)
Definition file_handler (E : env) (path fmt : string) : M handler :=
  fun s => if can_open E path then (Ok (FileHandler path fmt), s) else (Raise OSError, s).

(** [logger.addHandler(h)]: [h] is a new object, never already attached. *)
Definition add_handler (h : handler) : M unit :=
  fun s => (Ok tt, mk_st (stdout s) (stderr s) (handlers s ++ [h]) (written s) (calls s)).

(** [app.log.redirect_stdouts_to_logger(logger, rlevel)]: both streams
    are rebound to one [LoggingProxy]. *)
Definition redirect_stdouts_to_logger (rlevel : string) : M unit :=
  set_outs (LoggingProxy rlevel, LoggingProxy rlevel).

(** The object [sys.stdout] or [sys.stderr] is bound to in [s]. *)
Definition out_target (s : st) (f : std_stream) : stream :=
  match f with StdOut => stdout s | StdErr => stderr s end.

Definition print (msg : string) : M unit :=
  fun s => (Ok tt, mk_st (stdout s) (stderr s) (handlers s) (written s ++ [(stdout s, msg)]) (calls s)).

(** [training.train_msae(...)] with the arguments [c]: the call is
    recorded, the trainer's output goes to the current bindings of
    [sys.stdout] / [sys.stderr], then it returns or raises. *)
Definition train (E : env) (c : train_call) : M bool :=
  fun s => (train_msae E c,
            mk_st (stdout s) (stderr s) (handlers s)
              (written s ++ map (fun w => (out_target s (fst w), snd w)) (train_prints E c))
              (calls s ++ [c])).

Definition LOG_FORMAT := "%(asctime)s - %(name)s - %(message)s".

(** ** Lines 84-153: [run_my_task] *)
Definition run_my_task (E : env) (inputs : dict (list resource))
    (settings : dict Z) (outputs : dict (list resource)) : M bool :=
  oldouts <- get_outs ;;
  log_files <- lift (getitem outputs LOG_OUT) ;;
  (if Nat.ltb 0 (length log_files) then
     p <- lift (port_path outputs LOG_OUT) ;;
     handler <- file_handler E p LOG_FORMAT ;;
     add_handler handler
   else ret tt) ;;;
  try_finally
    (let rlevel := redirect_level E in
     redirect_stdouts_to_logger rlevel ;;;
     c <- lift (prepare E inputs settings outputs) ;;
     status <- train E c ;;
     print "Finishing the Fast CM trainer job." ;;;
     ret true)
    (set_outs oldouts).

(** ** Derived views used in the statements

    [layer_mask E inputs port] is [cv2.imread(inputs[port][0]['resource_path'],
    cv2.IMREAD_UNCHANGED)[:, :, 3] == 255] (lines 104-105, 125, 129);
    [selection_mask] is [regions_mask] of line 104. *)
Definition layer_mask (E : env) (inputs : dict (list resource)) (port : string)
    : result (ndarray bool) :=
  let? p := port_path inputs port in
  alpha_opaque (imread E p IMREAD_UNCHANGED).

Definition SYMBOLS_IN := "rgba PNG - Music symbol layer".
Definition BACKGROUND_IN := "rgba PNG - Background layer".
Definition REGIONS_IN := "rgba PNG - Selected regions".

Definition selection_mask (E : env) (inputs : dict (list resource)) : result (ndarray bool) :=
  layer_mask E inputs REGIONS_IN.

(** [np.logical_and(<port>_mask, regions_mask)] *)
Definition restricted_mask (E : env) (inputs : dict (list resource))
    (regions_mask : ndarray bool) (port : string) : result (ndarray bool) :=
  let? lm := layer_mask E inputs port in
  logical_and lm regions_mask.

(** The annotation port each non-background class is read from. *)
Definition class_port (C : string) : option string :=
  if String.eqb C "symbols" then Some SYMBOLS_IN
  else if String.eqb C "staff" then Some STAFF_IN
  else if String.eqb C "text" then Some TEXT_IN
  else None.

(** [if b: d[C] = <r>] *)
Definition set_step {A} (r : result A) (C : string) (d : dict A) (b : bool)
    : result (dict A) :=
  if b then let? v := r in Ok (dict_set d C v) else Ok d.

(** The same collaborators, except that the base image at [p] (read with
    the flag [True]) cannot be decoded: [cv2.imread] returns [None]. *)
Definition env_without_image (E : env) (p : string) : env :=
  mk_env (fun q f => if Z.eqb f IMREAD_COLOR && String.eqb q p then None else imread E q f)
    (can_open E) (redirect_level E) (train_msae E) (train_prints E).

(** The same collaborators, except that the base image at [p_image]
    (read with the flag [True]) decodes to [img] and the background layer
    at [p_bg] (read with [cv2.IMREAD_UNCHANGED]) decodes to [bg]. *)
Definition env_with_layers (E : env) (p_image : string) (img : option image)
    (p_bg : string) (bg : image) : env :=
  mk_env (fun q f => if Z.eqb f IMREAD_COLOR && String.eqb q p_image then img
                     else if Z.eqb f IMREAD_UNCHANGED && String.eqb q p_bg then Some bg
                     else imread E q f)
    (can_open E) (redirect_level E) (train_msae E) (train_prints E).

(** The lines [ws] of a callee, as they reach a celery [LoggingProxy]
    of level [lvl] bound to both [sys.stdout] and [sys.stderr]. *)
Definition proxied (lvl : string) (ws : list (std_stream * string)) : list (stream * string) :=
  map (fun w => (LoggingProxy lvl, snd w)) ws.

(** The settings keys read at lines 110-114. *)
Definition SETTINGS_KEYS : list string :=
  ["Batch Size"; "Patch height"; "Patch width"; "Maximum number of training epochs";
   "Maximum number of samples per label"].

(** ** Concrete invocations *)

Module Examples.

(** A fully opaque RGBA image of [h] rows and [w] columns. *)
Definition opaque_img (h w : nat) : image := mk_image h w 4 (fun _ _ _ => 255%Z).

(** A 3-channel image, as read with the flag [True]. *)
Definition rgb_img (h w : nat) : image := mk_image h w 3 (fun _ _ _ => 0%Z).

Definition res (p : string) : list resource := [mk_resource p].

(** Every file decodes to a 2x2 opaque RGBA image; the trainer signals
    failure by returning [False]. *)
Definition env_fail : env :=
  mk_env (fun _ _ => Some (opaque_img 2 2)) (fun _ => true) "WARNING" (fun _ => Ok false)
    (fun _ => [(StdOut, "Epoch 1/15"); (StdErr, "loss: 0.42")]).

(** The base image is 3x3 while every annotation layer is 2x2. *)
Definition env_mismatch : env :=
  mk_env (fun p _ => if String.eqb p "img" then Some (rgb_img 3 3) else Some (opaque_img 2 2))
    (fun _ => true) "WARNING" (fun _ => Ok true) (fun _ => []).

(** The symbols layer is 2x3 and the selected-regions layer 3x2. *)
Definition env_shape : env :=
  mk_env (fun p _ => if String.eqb p "sym" then Some (opaque_img 2 3)
                     else if String.eqb p "reg" then Some (opaque_img 3 2)
                     else Some (opaque_img 2 2))
    (fun _ => true) "WARNING" (fun _ => Ok true) (fun _ => []).

(** The log file cannot be opened. *)
Definition env_nolog : env :=
  mk_env (fun _ _ => Some (opaque_img 2 2)) (fun _ => false) "WARNING" (fun _ => Ok true) (fun _ => []).

Definition inputs_req : dict (list resource) :=
  [("Image", res "img"); (BACKGROUND_IN, res "bg"); (SYMBOLS_IN, res "sym");
   (REGIONS_IN, res "reg")].

(** Staff lines layer supplied. *)
Definition inputs_staff : dict (list resource) := inputs_req ++ [(STAFF_IN, res "staff")].

Definition settings_default : dict Z :=
  [("Batch Size", 16%Z); ("Patch height", 256%Z); ("Patch width", 256%Z);
   ("Maximum number of training epochs", 15%Z);
   ("Maximum number of samples per label", 2000%Z)].

(** Required outputs only: no staff or text model slot. *)
Definition outputs_req : dict (list resource) :=
  [("Background Model", res "bg.hdf5"); ("Music Symbol Model", res "sym.hdf5");
   (LOG_OUT, res "run.log")].

(** The log file slot is present with no resource. *)
Definition outputs_emptylog : dict (list resource) :=
  [("Background Model", res "bg.hdf5"); ("Music Symbol Model", res "sym.hdf5");
   (LOG_OUT, [])].

Definition s0 : st := mk_st (Stream 1) (Stream 2) [] [] [].

Definition no_call : train_call := mk_call None [] 0 0 [] 0 0 0.
Definition no_mask : ndarray bool := mk_nd 0 0 (fun _ _ => false).

(** The trainer call of the staff invocation and its staff ground truth. *)
Definition staff_call : train_call :=
  hd no_call (calls (snd (run_my_task env_fail inputs_staff settings_default outputs_req s0))).

Definition staff_mask : ndarray bool :=
  match dict_get (tc_gt staff_call) "staff" with Some m => m | None => no_mask end.

(** The trainer call of the invocation with required ports only. *)
Definition staff_call_req : train_call :=
  hd no_call (calls (snd (run_my_task env_fail inputs_req settings_default outputs_req s0))).

(** The arguments built for an invocation, or [no_call]. *)
Definition prepared (E : env) inputs settings outputs : train_call :=
  match prepare E inputs settings outputs with Ok c => c | Raise _ => no_call end.

Definition background_mask : ndarray bool :=
  match dict_get (tc_gt staff_call) "background" with Some m => m | None => no_mask end.

(** Trainer raising an exception. *)
Definition env_raise : env :=
  mk_env (fun _ _ => Some (opaque_img 2 2)) (fun _ => true) "WARNING" (fun _ => Raise TrainerError)
    (fun _ => [(StdErr, "Traceback (most recent call last):")]).

(** The selected-regions layer decodes with 3 channels (no alpha). *)
Definition env_rgb_regions : env :=
  mk_env (fun p _ => if String.eqb p "reg" then Some (rgb_img 2 2) else Some (opaque_img 2 2))
    (fun _ => true) "WARNING" (fun _ => Ok true) (fun _ => []).

(** The staff-lines port is present with no resource. *)
Definition inputs_staff_empty : dict (list resource) := inputs_req ++ [(STAFF_IN, [])].

(** A staff model slot is requested. *)
Definition outputs_staff : dict (list resource) := outputs_req ++ [(STAFF_OUT, res "staff.hdf5")].

(** The batch size setting is missing. *)
Definition settings_no_batch : dict Z := tl settings_default.

End Examples.

(** * Proofs *)

(** Unfold the monad and split on every stuck [match] of the run. *)
Ltac run_unfold :=
  unfold run_my_task, try_finally, bind, ret, lift, get_outs, set_outs,
    file_handler, add_handler, redirect_stdouts_to_logger, print, train in *.

Ltac run_cases :=
  run_unfold; cbn -[prepare port_path getitem] in *;
  repeat (match goal with
          | |- context [match ?x with _ => _ end] =>
              lazymatch x with
              | (_, _) => fail
              | context [match _ with _ => _ end] => fail
              | _ => destruct x eqn:?
              end
          end; cbn -[prepare port_path getitem] in *).

(** Substitute the [Ok] equations left by [run_cases]. *)
Ltac run_clean :=
  repeat match goal with H : Ok _ = Ok _ |- _ => injection H as H end;
  subst; cbn in *.


(** ** Dictionaries *)

Lemma dict_get_set {A} (d : dict A) k v k' :
  dict_get (dict_set d k v) k' = if String.eqb k' k then Some v else dict_get d k'.
Proof.
  induction d as [|[k0 v0] d IH]; cbn.
  - reflexivity.
  - destruct (String.eqb_spec k k0) as [->|Hne]; cbn.
    + destruct (String.eqb k' k0); reflexivity.
    + rewrite IH.
      destruct (String.eqb_spec k' k0), (String.eqb_spec k' k); subst; congruence.
Qed.

Lemma in_keys_get {A} (d : dict A) k : In k (keys d) <-> dict_get d k <> None.
Proof.
  induction d as [|[k0 v0] d IH]; cbn.
  - split; [contradiction | congruence].
  - destruct (String.eqb_spec k k0) as [->|Hne].
    + split; [congruence | auto].
    + rewrite <- IH. split; [intros [H|H]; [congruence | exact H] | auto].
Qed.

Lemma getitem_get {A} (d : dict A) k v : getitem d k = Ok v -> dict_get d k = Some v.
Proof. unfold getitem. destruct (dict_get d k); congruence. Qed.

(** ** One optional-port step *)

Section SetStep.
Context {A : Type} (r : result A) (C : string).

Lemma set_step_other d b d' k :
  set_step r C d b = Ok d' -> k <> C -> dict_get d' k = dict_get d k.
Proof.
  unfold set_step. intros H Hk. destruct b; [destruct r; cbn in H|]; inversion H; subst; auto.
  rewrite dict_get_set. destruct (String.eqb_spec k C); congruence.
Qed.

Lemma set_step_val d b d' v :
  set_step r C d b = Ok d' -> dict_get d' C = Some v -> dict_get d C = Some v \/ r = Ok v.
Proof.
  unfold set_step. intros H Hv. destruct b; [destruct r; cbn in H|]; inversion H; subst; auto.
  rewrite dict_get_set, String.eqb_refl in Hv. right; congruence.
Qed.

Lemma set_step_present d b d' :
  set_step r C d b = Ok d' -> (dict_get d' C <> None <-> dict_get d C <> None \/ b = true).
Proof.
  unfold set_step. intros H. destruct b; [destruct r; cbn in H|]; inversion H; subst.
  - rewrite dict_get_set, String.eqb_refl. split; [auto | congruence].
  - split; [auto | intros [Hn|Hn]; [exact Hn | discriminate]].
Qed.

End SetStep.

Lemma staff_step_eq E inputs rm gt k :
  staff_step E inputs rm gt k
  = set_step (restricted_mask E inputs rm STAFF_IN) "staff" gt (String.eqb k STAFF_IN).
Proof.
  unfold staff_step, set_step, restricted_mask, layer_mask.
  destruct (String.eqb k STAFF_IN); [|reflexivity].
  destruct (port_path inputs STAFF_IN); cbn; [|reflexivity].
  destruct (alpha_opaque _); reflexivity.
Qed.

Lemma text_step_eq E inputs rm gt k :
  text_step E inputs rm gt k
  = set_step (restricted_mask E inputs rm TEXT_IN) "text" gt (String.eqb k TEXT_IN).
Proof.
  unfold text_step, set_step, restricted_mask, layer_mask.
  destruct (String.eqb k TEXT_IN); [|reflexivity].
  destruct (port_path inputs TEXT_IN); cbn; [|reflexivity].
  destruct (alpha_opaque _); reflexivity.
Qed.

Lemma outputs_step_eq outputs omp k :
  outputs_step outputs omp k
  = let? omp := set_step (port_path outputs STAFF_OUT) "staff" omp (String.eqb k STAFF_OUT) in
    set_step (port_path outputs TEXT_OUT) "text" omp (String.eqb k TEXT_OUT).
Proof.
  unfold outputs_step, set_step.
  destruct (String.eqb k STAFF_OUT); [destruct (port_path outputs STAFF_OUT)|]; cbn;
    reflexivity.
Qed.

(** ** The loop over [inputs] (lines 122-130) *)

Ltac inputs_iter H :=
  rewrite staff_step_eq in H;
  let E1 := fresh "Es" in let E2 := fresh "Et" in
  destruct (set_step _ "staff" _ _) eqn:E1; cbn [rbind] in H; [|discriminate];
  rewrite text_step_eq in H;
  destruct (set_step _ "text" _ _) eqn:E2; cbn [rbind] in H; [|discriminate].

Lemma staff_ne_text : "staff" <> "text". Proof. discriminate. Qed.
Lemma text_ne_staff : "text" <> "staff". Proof. discriminate. Qed.

Section InputsLoop.
Variables (E : env) (inputs : dict (list resource)) (rm : ndarray bool).

Lemma inputs_loop_other ks gt gt' k :
  inputs_loop E inputs rm ks gt = Ok gt' -> k <> "staff" -> k <> "text" ->
  dict_get gt' k = dict_get gt k.
Proof.
  revert gt; induction ks as [|k0 ks IH]; cbn [inputs_loop outputs_loop In]; intros gt H Hs Ht.
  - congruence.
  - inputs_iter H. rewrite (IH _ H Hs Ht).
    erewrite set_step_other by eauto. eapply set_step_other; eauto.
Qed.

Lemma inputs_loop_val_staff ks gt gt' m :
  inputs_loop E inputs rm ks gt = Ok gt' -> dict_get gt' "staff" = Some m ->
  dict_get gt "staff" = Some m \/ restricted_mask E inputs rm STAFF_IN = Ok m.
Proof.
  revert gt; induction ks as [|k0 ks IH]; cbn [inputs_loop outputs_loop In]; intros gt H Hm.
  - left; congruence.
  - inputs_iter H. destruct (IH _ H Hm) as [Hd|Hd]; [|auto].
    erewrite set_step_other in Hd by (eauto using staff_ne_text).
    eapply set_step_val; eauto.
Qed.

Lemma inputs_loop_val_text ks gt gt' m :
  inputs_loop E inputs rm ks gt = Ok gt' -> dict_get gt' "text" = Some m ->
  dict_get gt "text" = Some m \/ restricted_mask E inputs rm TEXT_IN = Ok m.
Proof.
  revert gt; induction ks as [|k0 ks IH]; cbn [inputs_loop outputs_loop In]; intros gt H Hm.
  - left; congruence.
  - inputs_iter H. destruct (IH _ H Hm) as [Hd|Hd]; [|auto].
    destruct (set_step_val _ _ _ _ _ _ Et Hd) as [Hd'|Hd']; [|auto].
    erewrite set_step_other in Hd' by (eauto using text_ne_staff). auto.
Qed.

Lemma inputs_loop_present_staff ks gt gt' :
  inputs_loop E inputs rm ks gt = Ok gt' ->
  (dict_get gt' "staff" <> None <-> dict_get gt "staff" <> None \/ In STAFF_IN ks).
Proof.
  revert gt; induction ks as [|k0 ks IH]; cbn [inputs_loop outputs_loop In]; intros gt H.
  - inversion H; subst. tauto.
  - inputs_iter H. rewrite (IH _ H).
    erewrite (set_step_other _ _ _ _ _ "staff") by (eauto using staff_ne_text).
    rewrite (set_step_present _ _ _ _ _ Es), String.eqb_eq.
    tauto.
Qed.

Lemma inputs_loop_present_text ks gt gt' :
  inputs_loop E inputs rm ks gt = Ok gt' ->
  (dict_get gt' "text" <> None <-> dict_get gt "text" <> None \/ In TEXT_IN ks).
Proof.
  revert gt; induction ks as [|k0 ks IH]; cbn [inputs_loop outputs_loop In]; intros gt H.
  - inversion H; subst. tauto.
  - inputs_iter H. rewrite (IH _ H), (set_step_present _ _ _ _ _ Et), String.eqb_eq.
    erewrite (set_step_other _ _ _ _ _ "text") by (eauto using text_ne_staff).
    tauto.
Qed.

End InputsLoop.

(** ** The loop over [outputs] (lines 132-136) *)

Ltac outputs_iter H :=
  rewrite outputs_step_eq in H;
  let E1 := fresh "Es" in let E2 := fresh "Et" in
  destruct (set_step _ "staff" _ _) eqn:E1; cbn [rbind] in H; [|discriminate];
  destruct (set_step _ "text" _ _) eqn:E2; cbn [rbind] in H; [|discriminate].

Section OutputsLoop.
Variable outputs : dict (list resource).

Lemma outputs_loop_other ks omp omp' k :
  outputs_loop outputs ks omp = Ok omp' -> k <> "staff" -> k <> "text" ->
  dict_get omp' k = dict_get omp k.
Proof.
  revert omp; induction ks as [|k0 ks IH]; cbn [inputs_loop outputs_loop In]; intros omp H Hs Ht.
  - congruence.
  - outputs_iter H. rewrite (IH _ H Hs Ht).
    erewrite set_step_other by eauto. eapply set_step_other; eauto.
Qed.

Lemma outputs_loop_present_staff ks omp omp' :
  outputs_loop outputs ks omp = Ok omp' ->
  (dict_get omp' "staff" <> None <-> dict_get omp "staff" <> None \/ In STAFF_OUT ks).
Proof.
  revert omp; induction ks as [|k0 ks IH]; cbn [inputs_loop outputs_loop In]; intros omp H.
  - inversion H; subst. tauto.
  - outputs_iter H. rewrite (IH _ H).
    erewrite (set_step_other _ _ _ _ _ "staff") by (eauto using staff_ne_text).
    rewrite (set_step_present _ _ _ _ _ Es), String.eqb_eq.
    tauto.
Qed.

Lemma outputs_loop_present_text ks omp omp' :
  outputs_loop outputs ks omp = Ok omp' ->
  (dict_get omp' "text" <> None <-> dict_get omp "text" <> None \/ In TEXT_OUT ks).
Proof.
  revert omp; induction ks as [|k0 ks IH]; cbn [inputs_loop outputs_loop In]; intros omp H.
  - inversion H; subst. tauto.
  - outputs_iter H. rewrite (IH _ H), (set_step_present _ _ _ _ _ Et), String.eqb_eq.
    erewrite (set_step_other _ _ _ _ _ "text") by (eauto using text_ne_staff).
    tauto.
Qed.

End OutputsLoop.

(** ** The arguments of the trainer call *)

Lemma prepare_inv E inputs settings outputs c :
  prepare E inputs settings outputs = Ok c ->
  exists p_image rm sym bgm p_bgm p_sym,
    port_path inputs "Image" = Ok p_image /\
    tc_input_image c = imread E p_image IMREAD_COLOR /\
    selection_mask E inputs = Ok rm /\
    restricted_mask E inputs rm SYMBOLS_IN = Ok sym /\
    layer_mask E inputs BACKGROUND_IN = Ok bgm /\
    getitem settings "Batch Size" = Ok (tc_batch_size c) /\
    getitem settings "Patch height" = Ok (tc_height c) /\
    getitem settings "Patch width" = Ok (tc_width c) /\
    getitem settings "Maximum number of training epochs" = Ok (tc_epochs c) /\
    getitem settings "Maximum number of samples per label" = Ok (tc_max_samples_per_class c) /\
    port_path outputs "Background Model" = Ok p_bgm /\
    port_path outputs "Music Symbol Model" = Ok p_sym /\
    inputs_loop E inputs rm (keys inputs) [("symbols", sym); ("background", bgm)] = Ok (tc_gt c) /\
    outputs_loop outputs (keys outputs) [("background", p_bgm); ("symbols", p_sym)]
      = Ok (tc_output_path c).
Proof.
  unfold prepare. intros H.
  repeat (lazymatch type of H with
          | rbind ?x _ = _ => destruct x eqn:?; cbn [rbind] in H; [|discriminate]
          end).
  injection H as <-. cbn [dict_set String.eqb Ascii.eqb Bool.eqb] in *.
  do 6 eexists.
  unfold selection_mask, restricted_mask, layer_mask, REGIONS_IN, SYMBOLS_IN, BACKGROUND_IN.
  repeat (match goal with
          | Hx : ?x = Ok _ |- context [?x] => rewrite Hx; cbn [rbind]
          end).
  repeat split; first [reflexivity | eassumption].
Qed.

(** ** Effects of the run on the process-wide state *)

Lemma run_calls E inputs settings outputs s :
  calls (snd (run_my_task E inputs settings outputs s)) = calls s \/
  exists c, prepare E inputs settings outputs = Ok c /\
            calls (snd (run_my_task E inputs settings outputs s)) = calls s ++ [c].
Proof.
  run_cases; first [left; reflexivity | right; eexists; split; [reflexivity | reflexivity]].
Qed.

Lemma run_call_prepare E inputs settings outputs s c :
  calls (snd (run_my_task E inputs settings outputs s)) = calls s ++ [c] ->
  prepare E inputs settings outputs = Ok c.
Proof.
  intros H. destruct (run_calls E inputs settings outputs s) as [H'|[c' [Hp H']]].
  - rewrite H' in H. apply (f_equal (@length _)) in H.
    rewrite length_app in H. cbn in H. lia.
  - rewrite H' in H. apply app_inj_tail in H as [_ ->]. exact Hp.
Qed.

(** While both streams are bound to one [LoggingProxy], everything a
    callee writes reaches it. *)
Lemma train_output_proxied lvl s ws :
  stdout s = LoggingProxy lvl -> stderr s = LoggingProxy lvl ->
  map (fun w => (out_target s (fst w), snd w)) ws = proxied lvl ws.
Proof.
  intros Ho He. unfold proxied. apply map_ext. intros [[|] t]; cbn; congruence.
Qed.

(** When the log setup before the [try] succeeds and the arguments are
    built, the trainer is called with them. *)
Lemma run_call_made E inputs settings outputs s c :
  (getitem outputs LOG_OUT = Ok [] \/
   exists r rest, getitem outputs LOG_OUT = Ok (r :: rest) /\ can_open E (resource_path r) = true) ->
  prepare E inputs settings outputs = Ok c ->
  calls (snd (run_my_task E inputs settings outputs s)) = calls s ++ [c].
Proof.
  intros Hlog Hp.
  destruct Hlog as [Hl|(r & rest & Hl & Ho)].
  - run_cases; run_clean; try discriminate; congruence.
  - assert (Hpp : port_path outputs LOG_OUT = Ok (resource_path r))
      by (unfold port_path; rewrite Hl; reflexivity).
    run_cases; run_clean; try discriminate; congruence.
Qed.

(** ** Which reads the success of building the arguments depends on *)

Lemma set_step_ok {A} (r : result A) C d b d' d2 :
  set_step r C d b = Ok d' -> exists d2', set_step r C d2 b = Ok d2'.
Proof. unfold set_step. destruct b; [destruct r; cbn|]; intros H; [eauto|discriminate|eauto]. Qed.

(** The loop over [inputs] succeeds whatever the ground truth it starts
    from, as long as the staff and text layers give the same masks. *)
Lemma inputs_loop_change E E' inputs rm ks gt1 gt2 g1 :
  layer_mask E inputs STAFF_IN = layer_mask E' inputs STAFF_IN ->
  layer_mask E inputs TEXT_IN = layer_mask E' inputs TEXT_IN ->
  inputs_loop E inputs rm ks gt1 = Ok g1 ->
  exists g2, inputs_loop E' inputs rm ks gt2 = Ok g2.
Proof.
  intros Hs Ht. revert gt1 gt2; induction ks as [|k ks IH]; intros gt1 gt2 H; cbn [inputs_loop] in *.
  - eauto.
  - inputs_iter H.
    rewrite staff_step_eq. unfold restricted_mask at 1. rewrite <- Hs. fold (restricted_mask E inputs rm STAFF_IN).
    destruct (set_step_ok _ _ _ _ _ gt2 Es) as [d2 Hd2]. rewrite Hd2. cbn [rbind].
    rewrite text_step_eq. unfold restricted_mask at 1. rewrite <- Ht. fold (restricted_mask E inputs rm TEXT_IN).
    destruct (set_step_ok _ _ _ _ _ d2 Et) as [d3 Hd3]. rewrite Hd3. cbn [rbind].
    exact (IH _ _ H).
Qed.

(** The converse of [prepare_inv]. *)
Lemma prepare_intro E inputs settings outputs p_image rm sym bgm bs ph pw ep ms p_bgm p_sym gt omp :
  port_path inputs "Image" = Ok p_image ->
  selection_mask E inputs = Ok rm ->
  restricted_mask E inputs rm SYMBOLS_IN = Ok sym ->
  layer_mask E inputs BACKGROUND_IN = Ok bgm ->
  getitem settings "Batch Size" = Ok bs ->
  getitem settings "Patch height" = Ok ph ->
  getitem settings "Patch width" = Ok pw ->
  getitem settings "Maximum number of training epochs" = Ok ep ->
  getitem settings "Maximum number of samples per label" = Ok ms ->
  port_path outputs "Background Model" = Ok p_bgm ->
  port_path outputs "Music Symbol Model" = Ok p_sym ->
  inputs_loop E inputs rm (keys inputs) [("symbols", sym); ("background", bgm)] = Ok gt ->
  outputs_loop outputs (keys outputs) [("background", p_bgm); ("symbols", p_sym)] = Ok omp ->
  prepare E inputs settings outputs
    = Ok (mk_call (imread E p_image IMREAD_COLOR) gt ph pw omp ep ms bs).
Proof.
  intros Hi Hr Hs Hb Hbs Hph Hpw Hep Hms Hbm Hsm Hgt Homp.
  unfold selection_mask, restricted_mask, layer_mask, REGIONS_IN, SYMBOLS_IN, BACKGROUND_IN in *.
  destruct (port_path inputs "rgba PNG - Background layer") eqn:Hpb; cbn [rbind] in Hb; [|discriminate].
  destruct (port_path inputs "rgba PNG - Music symbol layer") eqn:Hps; cbn [rbind] in Hs; [|discriminate].
  destruct (port_path inputs "rgba PNG - Selected regions") eqn:Hpr; cbn [rbind] in Hr; [|discriminate].
  destruct (alpha_opaque (imread E a0 IMREAD_UNCHANGED)) eqn:Hn; cbn [rbind] in Hs; [|discriminate].
  unfold prepare. rewrite Hi, Hpb, Hps, Hpr. cbn [rbind].
  rewrite Hr, Hn. cbn [rbind]. rewrite Hs. cbn [rbind]. rewrite Hb. cbn [rbind].
  rewrite Hbs, Hph, Hpw, Hep, Hms, Hbm, Hsm. cbn [rbind dict_set String.eqb Ascii.eqb Bool.eqb].
  rewrite Hgt. cbn [rbind]. rewrite Homp. reflexivity.
Qed.

(** Replacing the base image by any image and the background layer by
    any image with an alpha channel does not stop the arguments from
    being built, when no other layer is read from the background file. *)
Lemma prepare_with_layers E inputs settings outputs c p_image img p_bg bg bgm :
  prepare E inputs settings outputs = Ok c ->
  port_path inputs "Image" = Ok p_image ->
  port_path inputs BACKGROUND_IN = Ok p_bg ->
  (forall port, In port [SYMBOLS_IN; REGIONS_IN; STAFF_IN; TEXT_IN] ->
     port_path inputs port <> Ok p_bg) ->
  alpha_opaque (Some bg) = Ok bgm ->
  exists c', prepare (env_with_layers E p_image img p_bg bg) inputs settings outputs = Ok c' /\
    tc_input_image c' = img /\ dict_get (tc_gt c') "background" = Some bgm.
Proof.
  intros Hp Hi Hb Hd Ha.
  set (E' := env_with_layers E p_image img p_bg bg).
  assert (Hlm : forall port, In port [SYMBOLS_IN; REGIONS_IN; STAFF_IN; TEXT_IN] ->
                  layer_mask E' inputs port = layer_mask E inputs port).
  { intros port Hin. unfold layer_mask.
    destruct (port_path inputs port) as [q|] eqn:Hq; cbn [rbind]; [|reflexivity].
    assert (Hne : String.eqb q p_bg = false)
      by (apply String.eqb_neq; intros ->; exact (Hd port Hin Hq)).
    unfold E'; cbn. rewrite Hne. reflexivity. }
  assert (Hbg : layer_mask E' inputs BACKGROUND_IN = Ok bgm).
  { unfold layer_mask. rewrite Hb. cbn [rbind]. unfold E'; cbn. rewrite String.eqb_refl. exact Ha. }
  assert (Hc : imread E' p_image IMREAD_COLOR = img).
  { unfold E'; cbn. rewrite String.eqb_refl. reflexivity. }
  destruct (prepare_inv _ _ _ _ _ Hp)
    as (p_image0 & rm & sym & bgm0 & p_bgm & p_sym & Hi0 & _ & Hr & Hs & _ & Hbs & Hph & Hpw &
        Hep & Hms & Hbm & Hsm & Hgt & Homp).
  rewrite Hi in Hi0. injection Hi0 as <-.
  destruct (inputs_loop_change E E' inputs rm (keys inputs) _ [("symbols", sym); ("background", bgm)] _
              (eq_sym (Hlm STAFF_IN ltac:(cbn; tauto))) (eq_sym (Hlm TEXT_IN ltac:(cbn; tauto))) Hgt)
    as [g2 Hg2].
  exists (mk_call (imread E' p_image IMREAD_COLOR) g2 (tc_height c) (tc_width c) (tc_output_path c)
            (tc_epochs c) (tc_max_samples_per_class c) (tc_batch_size c)).
  split; [|split; [exact Hc|]].
  - apply prepare_intro with (rm := rm) (sym := sym) (bgm := bgm) (p_bgm := p_bgm) (p_sym := p_sym);
      try assumption.
    + unfold selection_mask. rewrite Hlm by (cbn; tauto). exact Hr.
    + unfold restricted_mask. rewrite Hlm by (cbn; tauto). exact Hs.
  - cbn [tc_gt]. rewrite (inputs_loop_other _ _ _ _ _ _ _ Hg2) by discriminate. reflexivity.
Qed.

(** ** Key sets of the two mappings passed to the trainer *)

Lemma gt_keys E inputs rm sym bgm gt :
  inputs_loop E inputs rm (keys inputs) [("symbols", sym); ("background", bgm)] = Ok gt ->
  forall k, In k (keys gt) <->
    k = "symbols" \/ k = "background" \/
    (k = "staff" /\ In STAFF_IN (keys inputs)) \/ (k = "text" /\ In TEXT_IN (keys inputs)).
Proof.
  intros H k. rewrite in_keys_get.
  destruct (String.eqb_spec k "staff") as [->|Hs].
  - rewrite (inputs_loop_present_staff _ _ _ _ _ _ H). cbn.
    intuition (try discriminate; try congruence).
  - destruct (String.eqb_spec k "text") as [->|Ht].
    + rewrite (inputs_loop_present_text _ _ _ _ _ _ H). cbn.
      intuition (try discriminate; try congruence).
    + rewrite (inputs_loop_other _ _ _ _ _ _ _ H Hs Ht), <- in_keys_get. cbn.
      intuition (subst; try congruence).
Qed.

Lemma omp_keys outputs p_bgm p_sym omp :
  outputs_loop outputs (keys outputs) [("background", p_bgm); ("symbols", p_sym)] = Ok omp ->
  forall k, In k (keys omp) <->
    k = "background" \/ k = "symbols" \/
    (k = "staff" /\ In STAFF_OUT (keys outputs)) \/ (k = "text" /\ In TEXT_OUT (keys outputs)).
Proof.
  intros H k. rewrite in_keys_get.
  destruct (String.eqb_spec k "staff") as [->|Hs].
  - rewrite (outputs_loop_present_staff _ _ _ _ H). cbn.
    intuition (try discriminate; try congruence).
  - destruct (String.eqb_spec k "text") as [->|Ht].
    + rewrite (outputs_loop_present_text _ _ _ _ H). cbn.
      intuition (try discriminate; try congruence).
    + rewrite (outputs_loop_other _ _ _ _ _ H Hs Ht), <- in_keys_get. cbn.
      intuition (subst; try congruence).
Qed.

Lemma logical_and_sub x y m a b :
  logical_and x y = Ok m -> nd_at m a b = true -> bget y a b = true.
Proof.
  unfold logical_and. destruct (bdim (nd_h x) (nd_h y)), (bdim (nd_w x) (nd_w y));
    intros H; try discriminate.
  injection H as <-. cbn. intros Hab. apply andb_prop in Hab. tauto.
Qed.

Lemma logical_and_mismatch x y : ~ broadcastable x y -> logical_and x y = Raise ValueError.
Proof.
  unfold broadcastable, logical_and. intros Hb.
  destruct (bdim (nd_h x) (nd_h y)), (bdim (nd_w x) (nd_w y)); try reflexivity.
  exfalso. apply Hb. split; discriminate.
Qed.

(** * The claims *)

Import Examples.

(** C1 (as stated, refuted): the claim says that with the staff-lines
    input supplied and no staff-model output slot, the trainer is passed
    no ['staff'] entry at all.  With [inputs_staff] and [outputs_req] the
    trainer's [gt] has a ['staff'] entry. *)
Lemma staff_plan_exclusion_counterexample :
  ~ (forall E inputs settings outputs s c,
       In STAFF_IN (keys inputs) -> ~ In STAFF_OUT (keys outputs) ->
       calls (snd (run_my_task E inputs settings outputs s)) = calls s ++ [c] ->
       ~ In "staff" (keys (tc_gt c)) /\ ~ In "staff" (keys (tc_output_path c))).
Proof.
  intros H.
  destruct (H env_fail inputs_staff settings_default outputs_req s0 staff_call) as [Hgt _].
  - apply in_keys_get. vm_compute. discriminate.
  - rewrite in_keys_get. vm_compute. tauto.
  - reflexivity.
  - apply Hgt, in_keys_get. vm_compute. discriminate.
Qed.

(** C1 (amended): each optional class is decided on each side on its
    own.  When the trainer is called, ['staff'] (['text']) is a key of the
    ground-truth mapping exactly when the staff-lines (text) input port is
    a key of [inputs], and a key of the output-path mapping exactly when
    the staff (text) model output port is a key of [outputs]. *)
Theorem optional_class_plan E inputs settings outputs s :
  calls (snd (run_my_task E inputs settings outputs s)) = calls s \/
  exists c, calls (snd (run_my_task E inputs settings outputs s)) = calls s ++ [c] /\
    (In "staff" (keys (tc_gt c)) <-> In STAFF_IN (keys inputs)) /\
    (In "staff" (keys (tc_output_path c)) <-> In STAFF_OUT (keys outputs)) /\
    (In "text" (keys (tc_gt c)) <-> In TEXT_IN (keys inputs)) /\
    (In "text" (keys (tc_output_path c)) <-> In TEXT_OUT (keys outputs)).
Proof.
  destruct (run_calls E inputs settings outputs s) as [H|[c [Hp H]]]; [left; exact H|].
  right. exists c. split; [exact H|].
  destruct (prepare_inv _ _ _ _ _ Hp)
    as (p_image & rm & sym & bgm & p_bgm & p_sym & _ & _ & _ & _ & _ & _ & _ & _ & _ & _ &
        _ & _ & Hgt & Homp).
  rewrite !(gt_keys _ _ _ _ _ _ Hgt), !(omp_keys _ _ _ _ Homp).
  intuition (try discriminate; try congruence).
Qed.

(** C2 (as stated, refuted): the claim says that whenever two supplied
    layers differ in dimensions the invocation fails before the trainer
    is called.  With [env_mismatch] the base image is 3x3 and the symbols
    layer 2x2, and the trainer is called. *)
Lemma shape_mismatch_counterexample :
  ~ (forall E inputs settings outputs s p_image p_sym im sm,
       port_path inputs "Image" = Ok p_image -> imread E p_image IMREAD_COLOR = Some im ->
       port_path inputs SYMBOLS_IN = Ok p_sym -> imread E p_sym IMREAD_UNCHANGED = Some sm ->
       (img_h im, img_w im) <> (img_h sm, img_w sm) ->
       calls (snd (run_my_task E inputs settings outputs s)) = calls s).
Proof.
  intros H.
  assert (Hc := H env_mismatch inputs_req settings_default outputs_req s0 "img" "sym"
                  (rgb_img 3 3) (opaque_img 2 2) eq_refl eq_refl eq_refl eq_refl).
  vm_compute in Hc. discriminate Hc. discriminate.
Qed.

(** When the symbols layer and the selected-regions layer have alpha
    masks that numpy cannot broadcast together (and the port lookups read
    before them succeed), building the arguments fails with the broadcast
    error [ValueError] at [np.logical_and] and the trainer is not
    called. *)
Lemma symbols_regions_mismatch_fails E inputs settings outputs s p_image p_bg rm lm :
  port_path inputs "Image" = Ok p_image ->
  port_path inputs BACKGROUND_IN = Ok p_bg ->
  selection_mask E inputs = Ok rm ->
  layer_mask E inputs SYMBOLS_IN = Ok lm ->
  ~ broadcastable lm rm ->
  prepare E inputs settings outputs = Raise ValueError /\
  calls (snd (run_my_task E inputs settings outputs s)) = calls s.
Proof.
  intros Hi Hb Hr Hs Hnb.
  assert (Hp : prepare E inputs settings outputs = Raise ValueError).
  { unfold selection_mask, layer_mask, REGIONS_IN in Hr.
    unfold layer_mask, SYMBOLS_IN in Hs. unfold BACKGROUND_IN in Hb.
    unfold prepare. rewrite Hi, Hb. cbn [rbind].
    destruct (port_path inputs "rgba PNG - Music symbol layer") as [p_sym|]; [|discriminate].
    destruct (port_path inputs "rgba PNG - Selected regions") as [p_reg|]; [|discriminate].
    cbn [rbind] in *. rewrite Hr, Hs. cbn [rbind].
    rewrite (logical_and_mismatch _ _ Hnb). reflexivity. }
  split; [exact Hp|].
  destruct (run_calls E inputs settings outputs s) as [H|[c [Hc _]]]; congruence.
Qed.

(** C2 (amended): the only shape check is the one of [np.logical_and]
    between the symbols layer and the selected-regions layer (line 106):
    when their alpha masks cannot be broadcast together, the invocation
    fails with [ValueError] before the trainer is called.  The base image
    and the background layer are never compared with another layer: in
    an invocation that reaches the trainer, replacing the base image by
    any image (or none) and the background layer by any image with an
    alpha channel, whatever their sizes, still reaches the trainer, which
    receives them. *)
Theorem layer_shape_checks :
  (forall E inputs settings outputs s p_image p_bg rm lm,
     port_path inputs "Image" = Ok p_image ->
     port_path inputs BACKGROUND_IN = Ok p_bg ->
     selection_mask E inputs = Ok rm ->
     layer_mask E inputs SYMBOLS_IN = Ok lm ->
     ~ broadcastable lm rm ->
     prepare E inputs settings outputs = Raise ValueError /\
     calls (snd (run_my_task E inputs settings outputs s)) = calls s) /\
  (forall E inputs settings outputs s c p_image img p_bg bg bgm,
     (getitem outputs LOG_OUT = Ok [] \/
      exists r rest, getitem outputs LOG_OUT = Ok (r :: rest) /\ can_open E (resource_path r) = true) ->
     prepare E inputs settings outputs = Ok c ->
     port_path inputs "Image" = Ok p_image ->
     port_path inputs BACKGROUND_IN = Ok p_bg ->
     (forall port, In port [SYMBOLS_IN; REGIONS_IN; STAFF_IN; TEXT_IN] ->
        port_path inputs port <> Ok p_bg) ->
     alpha_opaque (Some bg) = Ok bgm ->
     exists c',
       calls (snd (run_my_task (env_with_layers E p_image img p_bg bg) inputs settings outputs s))
         = calls s ++ [c'] /\
       tc_input_image c' = img /\ dict_get (tc_gt c') "background" = Some bgm).
Proof.
  split.
  - intros E inputs settings outputs s p_image p_bg rm lm Hi Hb Hr Hs Hnb.
    exact (symbols_regions_mismatch_fails E inputs settings outputs s p_image p_bg rm lm
             Hi Hb Hr Hs Hnb).
  - intros E inputs settings outputs s c p_image img p_bg bg bgm Hlog Hp Hi Hb Hd Ha.
    destruct (prepare_with_layers E inputs settings outputs c p_image img p_bg bg bgm Hp Hi Hb Hd Ha)
      as (c' & Hp' & Himg & Hbg).
    exists c'. split; [|split; assumption].
    apply run_call_made; [exact Hlog | exact Hp'].
Qed.

(** With [env_shape] the symbols layer (2x3) and the selected-regions
    layer (3x2) do not broadcast; with [env_fail] changed to a 3x3 base
    image without alpha and a 5x7 background layer, while every other
    layer is 2x2, the trainer is still called. *)
Lemma layer_shape_checks_witness :
  prepare env_shape inputs_req settings_default outputs_req = Raise ValueError /\
  calls (snd (run_my_task env_shape inputs_req settings_default outputs_req s0)) = calls s0 /\
  exists c',
    calls (snd (run_my_task (env_with_layers env_fail "img" (Some (rgb_img 3 3)) "bg" (opaque_img 5 7))
                  inputs_req settings_default outputs_req s0)) = [c'] /\
    tc_input_image c' = Some (rgb_img 3 3) /\
    dict_get (tc_gt c') "background" = Some (nd_eq (mk_nd 5 7 (fun _ _ => 255%Z)) 255).
Proof.
  assert (Hnb : ~ broadcastable (nd_eq (mk_nd 2 3 (fun _ _ => 255%Z)) 255)
                                (nd_eq (mk_nd 3 2 (fun _ _ => 255%Z)) 255)).
  { unfold broadcastable. cbn. intros [H _]. apply H. reflexivity. }
  destruct (proj1 layer_shape_checks env_shape inputs_req settings_default outputs_req s0
              "img" "bg" _ _ eq_refl eq_refl eq_refl eq_refl Hnb) as [H1 H2].
  split; [exact H1 | split; [exact H2|]].
  assert (Hp : prepare env_fail inputs_req settings_default outputs_req
               = Ok (prepared env_fail inputs_req settings_default outputs_req)) by reflexivity.
  assert (Hd : forall port, In port [SYMBOLS_IN; REGIONS_IN; STAFF_IN; TEXT_IN] ->
                 port_path inputs_req port <> Ok "bg").
  { intros port Hin. cbn in Hin.
    destruct Hin as [<-|[<-|[<-|[<-|[]]]]]; vm_compute; discriminate. }
  exact (proj2 layer_shape_checks env_fail inputs_req settings_default outputs_req s0
           (prepared env_fail inputs_req settings_default outputs_req)
           "img" (Some (rgb_img 3 3)) "bg" (opaque_img 5 7) _
           (or_intror (ex_intro _ (mk_resource "run.log") (ex_intro _ [] (conj eq_refl eq_refl))))
           Hp eq_refl eq_refl Hd eq_refl).
Defined.

(** C3 (the trainer's status is discarded): with [env_fail] the trainer
    is called once and returns [False], yet [run_my_task] returns [True]
    (line 151 returns the constant, not [status]). *)
Theorem trainer_failure_reported_as_success :
  calls (snd (run_my_task env_fail inputs_req settings_default outputs_req s0)) = [staff_call_req] /\
  train_msae env_fail staff_call_req = Ok false /\
  fst (run_my_task env_fail inputs_req settings_default outputs_req s0) = Ok true.
Proof. vm_compute. repeat split; reflexivity. Qed.

(** C4: on every path of [run_my_task] (the trainer returning [True] or
    [False], any exception raised before or inside the [try] block), the
    final bindings of [sys.stdout] and [sys.stderr] are the initial ones. *)
Theorem run_streams_restored (E : env) inputs settings outputs (s : st) :
  stdout (snd (run_my_task E inputs settings outputs s)) = stdout s /\
  stderr (snd (run_my_task E inputs settings outputs s)) = stderr s.
Proof. run_cases; auto. Qed.

(** C5 (the log handler is never detached): [logger.addHandler] at
    line 91 has no matching [removeHandler]; the [finally] block restores
    only the two streams.  With one log file requested, the handler set
    is empty before the run and holds the new [FileHandler] after it. *)
Theorem log_handler_left_attached :
  handlers s0 = [] /\
  fst (run_my_task env_fail inputs_req settings_default outputs_req s0) = Ok true /\
  handlers (snd (run_my_task env_fail inputs_req settings_default outputs_req s0))
    = [FileHandler "run.log" LOG_FORMAT].
Proof. vm_compute. repeat split; reflexivity. Qed.

Lemma restricted_sub E inputs rm port m a b :
  restricted_mask E inputs rm port = Ok m -> nd_at m a b = true -> bget rm a b = true.
Proof.
  unfold restricted_mask. destruct (layer_mask E inputs port); cbn [rbind]; [|discriminate].
  apply logical_and_sub.
Qed.

(** C6: every ground-truth mask passed to the trainer for a class other
    than ['background'] is [np.logical_and] of that class layer's opaque
    test with the selection mask [regions_mask]; so each of its true
    pixels is true in the selection mask (read at the broadcast index,
    which is the pixel itself when the shapes agree). *)
Theorem gt_within_selection E inputs settings outputs s c C m :
  calls (snd (run_my_task E inputs settings outputs s)) = calls s ++ [c] ->
  C <> "background" ->
  dict_get (tc_gt c) C = Some m ->
  exists port rm,
    class_port C = Some port /\
    selection_mask E inputs = Ok rm /\
    restricted_mask E inputs rm port = Ok m /\
    (forall a b, nd_at m a b = true -> bget rm a b = true).
Proof.
  intros Hc HC Hm. apply run_call_prepare in Hc.
  destruct (prepare_inv _ _ _ _ _ Hc)
    as (p_image & rm & sym & bgm & p_bgm & p_sym & _ & _ & Hsel & Hsym & _ & _ & _ & _ & _ & _ &
        _ & _ & Hgt & _).
  assert (Hfin : forall port, class_port C = Some port ->
            restricted_mask E inputs rm port = Ok m ->
            exists port' rm', class_port C = Some port' /\ selection_mask E inputs = Ok rm' /\
              restricted_mask E inputs rm' port' = Ok m /\
              (forall a b, nd_at m a b = true -> bget rm' a b = true)).
  { intros port Hport Hrm. exists port, rm. repeat split; auto.
    intros a b. apply (restricted_sub _ _ _ _ _ _ _ Hrm). }
  destruct (String.eqb_spec C "staff") as [->|Hs].
  - destruct (inputs_loop_val_staff _ _ _ _ _ _ _ Hgt Hm) as [Hd|Hd]; [discriminate|].
    apply (Hfin STAFF_IN); [reflexivity | exact Hd].
  - destruct (String.eqb_spec C "text") as [->|Ht].
    + destruct (inputs_loop_val_text _ _ _ _ _ _ _ Hgt Hm) as [Hd|Hd]; [discriminate|].
      apply (Hfin TEXT_IN); [reflexivity | exact Hd].
    + rewrite (inputs_loop_other _ _ _ _ _ _ _ Hgt Hs Ht) in Hm. cbn [dict_get] in Hm.
      destruct (String.eqb_spec C "symbols") as [->|Hy]; [|].
      * injection Hm as <-. apply (Hfin SYMBOLS_IN); [reflexivity | exact Hsym].
      * destruct (String.eqb_spec C "background"); [contradiction | discriminate].
Qed.

Lemma gt_within_selection_witness :
  calls (snd (run_my_task env_fail inputs_staff settings_default outputs_req s0))
    = calls s0 ++ [staff_call] /\
  "staff" <> "background" /\
  dict_get (tc_gt staff_call) "staff" = Some staff_mask /\
  exists port rm,
    class_port "staff" = Some port /\
    selection_mask env_fail inputs_staff = Ok rm /\
    restricted_mask env_fail inputs_staff rm port = Ok staff_mask /\
    (forall a b, nd_at staff_mask a b = true -> bget rm a b = true).
Proof.
  assert (H1 : calls (snd (run_my_task env_fail inputs_staff settings_default outputs_req s0))
               = calls s0 ++ [staff_call]) by reflexivity.
  assert (H2 : "staff" <> "background") by discriminate.
  assert (H3 : dict_get (tc_gt staff_call) "staff" = Some staff_mask) by reflexivity.
  split; [exact H1 | split; [exact H2 | split; [exact H3 |]]].
  exact (gt_within_selection env_fail inputs_staff settings_default outputs_req s0
           staff_call "staff" staff_mask H1 H2 H3).
Defined.

(** C7: the ground truth passed for ['background'] is the background
    layer's own opaque test [background[:, :, 3] == 255], with no
    [np.logical_and] against the selection mask. *)
Theorem background_gt_unrestricted E inputs settings outputs s c :
  calls (snd (run_my_task E inputs settings outputs s)) = calls s ++ [c] ->
  exists m, dict_get (tc_gt c) "background" = Some m /\
            layer_mask E inputs BACKGROUND_IN = Ok m.
Proof.
  intros Hc. apply run_call_prepare in Hc.
  destruct (prepare_inv _ _ _ _ _ Hc)
    as (p_image & rm & sym & bgm & p_bgm & p_sym & _ & _ & _ & _ & Hbg & _ & _ & _ & _ & _ &
        _ & _ & Hgt & _).
  exists bgm. split; [|exact Hbg].
  rewrite (inputs_loop_other _ _ _ _ _ _ _ Hgt); [reflexivity | discriminate | discriminate].
Qed.

Lemma background_gt_unrestricted_witness :
  calls (snd (run_my_task env_fail inputs_staff settings_default outputs_req s0))
    = calls s0 ++ [staff_call] /\
  exists m, dict_get (tc_gt staff_call) "background" = Some m /\
            layer_mask env_fail inputs_staff BACKGROUND_IN = Ok m.
Proof.
  assert (H1 : calls (snd (run_my_task env_fail inputs_staff settings_default outputs_req s0))
               = calls s0 ++ [staff_call]) by reflexivity.
  split; [exact H1 |].
  exact (background_gt_unrestricted env_fail inputs_staff settings_default outputs_req s0
           staff_call H1).
Defined.

(** C8 (as stated, refuted): the claim says that when the log file
    handler cannot be attached, the invocation still reaches the trainer.
    With [env_nolog] the arguments can be built, but no call is made. *)
Lemma log_setup_failure_counterexample :
  ~ (forall E inputs settings outputs s p rest c,
       getitem outputs LOG_OUT = Ok (mk_resource p :: rest) ->
       can_open E p = false ->
       prepare E inputs settings outputs = Ok c ->
       calls (snd (run_my_task E inputs settings outputs s)) = calls s ++ [c]).
Proof.
  intros H.
  assert (Hc := H env_nolog inputs_req settings_default outputs_req s0 "run.log" []
                  (prepared env_nolog inputs_req settings_default outputs_req)
                  eq_refl eq_refl eq_refl).
  vm_compute in Hc. discriminate Hc.
Qed.

(** C8 (amended): when a log file is requested and [logging.FileHandler]
    cannot open it, [run_my_task] raises at line 87, before the [try]
    block: nothing is redirected, no handler is attached, the trainer is
    not called, and the process state is left as it was. *)
Theorem log_setup_failure_aborts E inputs settings outputs s p rest :
  getitem outputs LOG_OUT = Ok (mk_resource p :: rest) ->
  can_open E p = false ->
  run_my_task E inputs settings outputs s = (Raise OSError, s).
Proof.
  intros Hl Ho.
  assert (Hp : port_path outputs LOG_OUT = Ok p) by (unfold port_path; rewrite Hl; reflexivity).
  unfold run_my_task, bind, get_outs, lift, file_handler.
  rewrite Hl. cbn -[port_path]. rewrite Hp, Ho. reflexivity.
Qed.

Lemma log_setup_failure_aborts_witness :
  getitem outputs_req LOG_OUT = Ok [mk_resource "run.log"] /\
  can_open env_nolog "run.log" = false /\
  run_my_task env_nolog inputs_req settings_default outputs_req s0 = (Raise OSError, s0).
Proof.
  assert (H1 : getitem outputs_req LOG_OUT = Ok [mk_resource "run.log"]) by reflexivity.
  assert (H2 : can_open env_nolog "run.log" = false) by reflexivity.
  split; [exact H1 | split; [exact H2 |]].
  exact (log_setup_failure_aborts env_nolog inputs_req settings_default outputs_req s0
           "run.log" [] H1 H2).
Defined.

(** C9 (as stated, refuted): the claim says the output-path mapping has
    the same class set as the ground-truth mapping.  With the staff input
    and no staff model slot, ['staff'] is a key of the first only. *)
Lemma trainer_call_keys_counterexample :
  ~ (forall E inputs settings outputs s c,
       calls (snd (run_my_task E inputs settings outputs s)) = calls s ++ [c] ->
       forall k, In k (keys (tc_gt c)) <-> In k (keys (tc_output_path c))).
Proof.
  intros H.
  assert (Hk := H env_fail inputs_staff settings_default outputs_req s0 staff_call eq_refl "staff").
  destruct Hk as [Hk _].
  assert (Hin : In "staff" (keys (tc_gt staff_call))).
  { apply in_keys_get. vm_compute. discriminate. }
  apply Hk, in_keys_get in Hin. vm_compute in Hin. apply Hin. reflexivity.
Qed.

(** C9 (amended): an invocation calls the trainer at most once; when the
    log setup before the [try] succeeds and the arguments are built it
    calls it exactly once, with those arguments.  Any call is made with
    the decoded base image, the patch height and width, the sample cap,
    the epoch cap and the batch size read from [settings], a ground-truth
    mapping whose classes are ['symbols'], ['background'] and each
    optional class whose input port was supplied, and an output-path
    mapping whose classes are ['background'], ['symbols'] and each
    optional class whose output port was supplied. *)
Theorem trainer_call_arguments E inputs settings outputs s :
  (forall c,
     (getitem outputs LOG_OUT = Ok [] \/
      exists r rest, getitem outputs LOG_OUT = Ok (r :: rest) /\ can_open E (resource_path r) = true) ->
     prepare E inputs settings outputs = Ok c ->
     calls (snd (run_my_task E inputs settings outputs s)) = calls s ++ [c]) /\
  (calls (snd (run_my_task E inputs settings outputs s)) = calls s \/
  exists c,
    calls (snd (run_my_task E inputs settings outputs s)) = calls s ++ [c] /\
    (exists p, port_path inputs "Image" = Ok p /\ tc_input_image c = imread E p IMREAD_COLOR) /\
    getitem settings "Patch height" = Ok (tc_height c) /\
    getitem settings "Patch width" = Ok (tc_width c) /\
    getitem settings "Maximum number of samples per label" = Ok (tc_max_samples_per_class c) /\
    getitem settings "Maximum number of training epochs" = Ok (tc_epochs c) /\
    getitem settings "Batch Size" = Ok (tc_batch_size c) /\
    (forall k, In k (keys (tc_gt c)) <->
       k = "symbols" \/ k = "background" \/
       (k = "staff" /\ In STAFF_IN (keys inputs)) \/ (k = "text" /\ In TEXT_IN (keys inputs))) /\
    (forall k, In k (keys (tc_output_path c)) <->
       k = "background" \/ k = "symbols" \/
       (k = "staff" /\ In STAFF_OUT (keys outputs)) \/ (k = "text" /\ In TEXT_OUT (keys outputs)))).
Proof.
  split; [intros c Hlog Hp; exact (run_call_made _ _ _ _ s c Hlog Hp)|].
  destruct (run_calls E inputs settings outputs s) as [H|[c [Hp H]]]; [left; exact H|].
  right. exists c. split; [exact H|].
  destruct (prepare_inv _ _ _ _ _ Hp)
    as (p_image & rm & sym & bgm & p_bgm & p_sym & Himg & Hin & _ & _ & _ & Hbs & Hph & Hpw &
        Hep & Hms & _ & _ & Hgt & Homp).
  split; [exists p_image; split; assumption|].
  repeat split; try assumption.
  - apply (gt_keys _ _ _ _ _ _ Hgt).
  - apply (gt_keys _ _ _ _ _ _ Hgt).
  - apply (omp_keys _ _ _ _ Homp).
  - apply (omp_keys _ _ _ _ Homp).
Qed.

Lemma trainer_call_arguments_witness :
  calls (snd (run_my_task env_fail inputs_staff settings_default outputs_req s0))
    = [prepared env_fail inputs_staff settings_default outputs_req].
Proof.
  apply (proj1 (trainer_call_arguments env_fail inputs_staff settings_default outputs_req s0)).
  - right. exists (mk_resource "run.log"), []. split; reflexivity.
  - reflexivity.
Defined.

(** C10: an empty list in the ['Log File'] slot is accepted: no handler
    is attached, the streams are still redirected to the logger and the
    trainer is still called with the prepared arguments.  Everything the
    trainer writes to [sys.stdout] or [sys.stderr] reaches the celery
    [LoggingProxy], followed, when the trainer returns, by the closing
    message, and the invocation then returns [True]. *)
Theorem empty_log_list_tolerated E inputs settings outputs s c :
  getitem outputs LOG_OUT = Ok [] ->
  prepare E inputs settings outputs = Ok c ->
  handlers (snd (run_my_task E inputs settings outputs s)) = handlers s /\
  calls (snd (run_my_task E inputs settings outputs s)) = calls s ++ [c] /\
  written (snd (run_my_task E inputs settings outputs s))
    = written s ++ proxied (redirect_level E) (train_prints E c) ++
      match train_msae E c with
      | Ok _ => [(LoggingProxy (redirect_level E), "Finishing the Fast CM trainer job.")]
      | Raise _ => []
      end /\
  (forall b, train_msae E c = Ok b -> fst (run_my_task E inputs settings outputs s) = Ok true).
Proof.
  intros Hl Hp.
  unfold run_my_task, try_finally, bind, ret, lift, get_outs, set_outs,
    redirect_stdouts_to_logger, print, train.
  rewrite Hl. cbn -[prepare]. rewrite Hp.
  rewrite (train_output_proxied (redirect_level E)) by reflexivity.
  destruct (train_msae E c) eqn:Ht; cbn.
  - rewrite <- app_assoc. repeat split; intros b Hb; reflexivity.
  - rewrite app_nil_r. repeat split; intros b Hb; discriminate.
Qed.

Lemma empty_log_list_tolerated_witness :
  getitem outputs_emptylog LOG_OUT = Ok [] /\
  prepare env_fail inputs_req settings_default outputs_emptylog
    = Ok (prepared env_fail inputs_req settings_default outputs_emptylog) /\
  handlers (snd (run_my_task env_fail inputs_req settings_default outputs_emptylog s0)) = handlers s0 /\
  calls (snd (run_my_task env_fail inputs_req settings_default outputs_emptylog s0))
    = calls s0 ++ [prepared env_fail inputs_req settings_default outputs_emptylog] /\
  written (snd (run_my_task env_fail inputs_req settings_default outputs_emptylog s0))
    = [(LoggingProxy "WARNING", "Epoch 1/15"); (LoggingProxy "WARNING", "loss: 0.42");
       (LoggingProxy "WARNING", "Finishing the Fast CM trainer job.")].
Proof.
  assert (H1 : getitem outputs_emptylog LOG_OUT = Ok []) by reflexivity.
  assert (H2 : prepare env_fail inputs_req settings_default outputs_emptylog
               = Ok (prepared env_fail inputs_req settings_default outputs_emptylog))
    by reflexivity.
  destruct (empty_log_list_tolerated env_fail inputs_req settings_default outputs_emptylog s0
              _ H1 H2) as [Hh [Hc [Hw _]]].
  split; [exact H1 | split; [exact H2 | split; [exact Hh | split; [exact Hc|]]]].
  rewrite Hw. reflexivity.
Defined.

(** * Further properties of [run_my_task] *)

(** When building the arguments raises, the trainer is not called and the
    invocation raises. *)
Lemma run_prepare_fail E inputs settings outputs s e :
  prepare E inputs settings outputs = Raise e ->
  calls (snd (run_my_task E inputs settings outputs s)) = calls s /\
  exists e', fst (run_my_task E inputs settings outputs s) = Raise e'.
Proof.
  intros Hp. run_cases; try congruence; split; eauto.
Qed.

Lemma layer_mask_of_restricted E inputs rm port m :
  restricted_mask E inputs rm port = Ok m -> exists lm, layer_mask E inputs port = Ok lm.
Proof.
  unfold restricted_mask. destruct (layer_mask E inputs port); cbn [rbind]; [eauto|discriminate].
Qed.

Lemma port_path_of_layer E inputs port lm :
  layer_mask E inputs port = Ok lm -> exists p, port_path inputs port = Ok p.
Proof.
  unfold layer_mask. destruct (port_path inputs port); cbn [rbind]; [eauto|discriminate].
Qed.

Section OutputsLoopVal.
Variable outputs : dict (list resource).

Lemma outputs_loop_val_staff ks omp omp' p :
  outputs_loop outputs ks omp = Ok omp' -> dict_get omp' "staff" = Some p ->
  dict_get omp "staff" = Some p \/ port_path outputs STAFF_OUT = Ok p.
Proof.
  revert omp; induction ks as [|k0 ks IH]; cbn [outputs_loop]; intros omp H Hm.
  - left; congruence.
  - outputs_iter H. destruct (IH _ H Hm) as [Hd|Hd]; [|auto].
    erewrite set_step_other in Hd by (eauto using staff_ne_text).
    eapply set_step_val; eauto.
Qed.

Lemma outputs_loop_val_text ks omp omp' p :
  outputs_loop outputs ks omp = Ok omp' -> dict_get omp' "text" = Some p ->
  dict_get omp "text" = Some p \/ port_path outputs TEXT_OUT = Ok p.
Proof.
  revert omp; induction ks as [|k0 ks IH]; cbn [outputs_loop]; intros omp H Hm.
  - left; congruence.
  - outputs_iter H. destruct (IH _ H Hm) as [Hd|Hd]; [|auto].
    destruct (set_step_val _ _ _ _ _ _ Et Hd) as [Hd'|Hd']; [|auto].
    erewrite set_step_other in Hd' by (eauto using text_ne_staff). auto.
Qed.

End OutputsLoopVal.

(** X1: without a ['Log File'] key in [outputs], [run_my_task] raises
    [KeyError] at line 86 and leaves the process state untouched. *)
Theorem missing_log_key_raises E inputs settings outputs s :
  dict_get outputs LOG_OUT = None ->
  run_my_task E inputs settings outputs s = (Raise (KeyError LOG_OUT), s).
Proof.
  intros Hl. unfold run_my_task, bind, get_outs, lift, getitem. rewrite Hl. reflexivity.
Qed.

Lemma missing_log_key_raises_witness :
  dict_get inputs_req LOG_OUT = None /\
  run_my_task env_fail inputs_req settings_default inputs_req s0
    = (Raise (KeyError LOG_OUT), s0).
Proof.
  assert (H : dict_get inputs_req LOG_OUT = None) by reflexivity.
  split; [exact H | exact (missing_log_key_raises env_fail inputs_req settings_default inputs_req s0 H)].
Defined.

(** X2: if one of the three required annotation layers (background,
    symbols, selected regions) yields no alpha mask (port missing, empty
    resource list, file not decodable, or fewer than four channels), the
    invocation raises and the trainer is not called. *)
Theorem required_layer_failure_no_call E inputs settings outputs s port e :
  In port [BACKGROUND_IN; SYMBOLS_IN; REGIONS_IN] ->
  layer_mask E inputs port = Raise e ->
  calls (snd (run_my_task E inputs settings outputs s)) = calls s /\
  exists e', fst (run_my_task E inputs settings outputs s) = Raise e'.
Proof.
  intros Hport Hl.
  destruct (prepare E inputs settings outputs) as [c|e0] eqn:Hp; [|eapply run_prepare_fail; eauto].
  exfalso.
  destruct (prepare_inv _ _ _ _ _ Hp)
    as (p_image & rm & sym & bgm & p_bgm & p_sym & _ & _ & Hsel & Hsym & Hbg & _).
  destruct (layer_mask_of_restricted _ _ _ _ _ Hsym) as [lm Hlm].
  unfold selection_mask in Hsel.
  destruct Hport as [<-|[<-|[<-|[]]]]; congruence.
Qed.

Lemma required_layer_failure_no_call_witness :
  layer_mask env_rgb_regions inputs_req REGIONS_IN = Raise IndexError /\
  calls (snd (run_my_task env_rgb_regions inputs_req settings_default outputs_req s0)) = calls s0.
Proof.
  assert (H : layer_mask env_rgb_regions inputs_req REGIONS_IN = Raise IndexError) by reflexivity.
  split; [exact H|].
  apply (required_layer_failure_no_call env_rgb_regions inputs_req settings_default outputs_req s0
           REGIONS_IN IndexError); [cbn; tauto | exact H].
Defined.

(** X3: if the ['Image'] port, the background or symbol model output
    port (missing key or empty list), or one of the five settings is
    missing, the invocation raises and the trainer is not called. *)
Theorem required_lookup_failure_no_call E inputs settings outputs s :
  (exists e, port_path inputs "Image" = Raise e) \/
  (exists e, port_path outputs "Background Model" = Raise e) \/
  (exists e, port_path outputs "Music Symbol Model" = Raise e) \/
  (exists k, In k SETTINGS_KEYS /\ dict_get settings k = None) ->
  calls (snd (run_my_task E inputs settings outputs s)) = calls s /\
  exists e', fst (run_my_task E inputs settings outputs s) = Raise e'.
Proof.
  intros Hmiss.
  destruct (prepare E inputs settings outputs) as [c|e0] eqn:Hp; [|eapply run_prepare_fail; eauto].
  exfalso.
  destruct (prepare_inv _ _ _ _ _ Hp)
    as (p_image & rm & sym & bgm & p_bgm & p_sym & Himg & _ & _ & _ & _ & Hbs & Hph & Hpw &
        Hep & Hms & Hpb & Hps & _).
  apply getitem_get in Hbs, Hph, Hpw, Hep, Hms.
  destruct Hmiss as [[e He]|[[e He]|[[e He]|[k [Hk Hn]]]]]; try congruence.
  unfold SETTINGS_KEYS in Hk.
  destruct Hk as [<-|[<-|[<-|[<-|[<-|[]]]]]]; congruence.
Qed.

Lemma required_lookup_failure_no_call_witness :
  calls (snd (run_my_task env_fail inputs_req settings_no_batch outputs_req s0)) = calls s0.
Proof.
  apply (required_lookup_failure_no_call env_fail inputs_req settings_no_batch outputs_req s0).
  right; right; right. exists "Batch Size". split; [cbn; tauto | reflexivity].
Defined.

(** X4: an optional port that is present but unusable stops the run: a
    supplied staff-lines or text port whose layer yields no alpha mask
    (empty resource list, undecodable file, no alpha channel), or a
    supplied staff or text model port with an empty resource list, makes
    the invocation raise, and the trainer is not called. *)
Theorem optional_port_failure_no_call E inputs settings outputs s :
  (In STAFF_IN (keys inputs) /\ exists e, layer_mask E inputs STAFF_IN = Raise e) \/
  (In TEXT_IN (keys inputs) /\ exists e, layer_mask E inputs TEXT_IN = Raise e) \/
  (In STAFF_OUT (keys outputs) /\ exists e, port_path outputs STAFF_OUT = Raise e) \/
  (In TEXT_OUT (keys outputs) /\ exists e, port_path outputs TEXT_OUT = Raise e) ->
  calls (snd (run_my_task E inputs settings outputs s)) = calls s /\
  exists e', fst (run_my_task E inputs settings outputs s) = Raise e'.
Proof.
  intros Hbad.
  destruct (prepare E inputs settings outputs) as [c|e0] eqn:Hp; [|eapply run_prepare_fail; eauto].
  exfalso.
  destruct (prepare_inv _ _ _ _ _ Hp)
    as (p_image & rm & sym & bgm & p_bgm & p_sym & _ & _ & _ & _ & _ & _ & _ & _ &
        _ & _ & _ & _ & Hgt & Homp).
  destruct Hbad as [[Hin [e He]]|[[Hin [e He]]|[[Hin [e He]]|[Hin [e He]]]]].
  - assert (Hpr := proj2 (inputs_loop_present_staff _ _ _ _ _ _ Hgt) (or_intror Hin)).
    destruct (dict_get (tc_gt c) "staff") as [m|] eqn:Hm; [|congruence].
    destruct (inputs_loop_val_staff _ _ _ _ _ _ _ Hgt Hm) as [Hd|Hd]; [discriminate|].
    destruct (layer_mask_of_restricted _ _ _ _ _ Hd); congruence.
  - assert (Hpr := proj2 (inputs_loop_present_text _ _ _ _ _ _ Hgt) (or_intror Hin)).
    destruct (dict_get (tc_gt c) "text") as [m|] eqn:Hm; [|congruence].
    destruct (inputs_loop_val_text _ _ _ _ _ _ _ Hgt Hm) as [Hd|Hd]; [discriminate|].
    destruct (layer_mask_of_restricted _ _ _ _ _ Hd); congruence.
  - assert (Hpr := proj2 (outputs_loop_present_staff _ _ _ _ Homp) (or_intror Hin)).
    destruct (dict_get (tc_output_path c) "staff") as [p|] eqn:Hm; [|congruence].
    destruct (outputs_loop_val_staff _ _ _ _ _ Homp Hm) as [Hd|Hd]; [discriminate|congruence].
  - assert (Hpr := proj2 (outputs_loop_present_text _ _ _ _ Homp) (or_intror Hin)).
    destruct (dict_get (tc_output_path c) "text") as [p|] eqn:Hm; [|congruence].
    destruct (outputs_loop_val_text _ _ _ _ _ Homp Hm) as [Hd|Hd]; [discriminate|congruence].
Qed.

Lemma optional_port_failure_no_call_witness :
  calls (snd (run_my_task env_fail inputs_staff_empty settings_default outputs_req s0)) = calls s0.
Proof.
  apply (optional_port_failure_no_call env_fail inputs_staff_empty settings_default outputs_req s0).
  left. split.
  - apply in_keys_get. vm_compute. discriminate.
  - exists IndexError. reflexivity.
Defined.

(** X5: when the ['Log File'] slot holds a resource whose file can be
    opened, a [FileHandler] for its path with the format
    [%(asctime)s - %(name)s - %(message)s] is appended to the logger's
    handlers, and it is still attached when the invocation ends, on every
    path (normal return, trainer failure or any exception after line 91). *)
Theorem log_handler_attached E inputs settings outputs s r rest :
  getitem outputs LOG_OUT = Ok (r :: rest) ->
  can_open E (resource_path r) = true ->
  handlers (snd (run_my_task E inputs settings outputs s))
    = handlers s ++ [FileHandler (resource_path r) LOG_FORMAT].
Proof.
  intros Hl Ho.
  assert (Hp : port_path outputs LOG_OUT = Ok (resource_path r))
    by (unfold port_path; rewrite Hl; reflexivity).
  run_cases; try congruence.
  all: injection Hl as ->; cbn in *; discriminate.
Qed.

Lemma log_handler_attached_witness :
  handlers (snd (run_my_task env_raise inputs_req settings_default outputs_req s0))
    = [FileHandler "run.log" LOG_FORMAT].
Proof.
  exact (log_handler_attached env_raise inputs_req settings_default outputs_req s0
           (mk_resource "run.log") [] eq_refl eq_refl).
Defined.

(** X6: an exception raised by the trainer propagates out of
    [run_my_task] unchanged (the [finally] block does not swallow it),
    after exactly one call, provided the log setup before the [try]
    succeeded. *)
Theorem trainer_exception_propagates E inputs settings outputs s c e :
  (getitem outputs LOG_OUT = Ok [] \/
   exists r rest, getitem outputs LOG_OUT = Ok (r :: rest) /\ can_open E (resource_path r) = true) ->
  prepare E inputs settings outputs = Ok c ->
  train_msae E c = Raise e ->
  fst (run_my_task E inputs settings outputs s) = Raise e /\
  calls (snd (run_my_task E inputs settings outputs s)) = calls s ++ [c].
Proof.
  intros Hlog Hp Ht.
  destruct Hlog as [Hl|(r & rest & Hl & Ho)].
  - run_cases; run_clean; try discriminate; try congruence; split; congruence.
  - assert (Hpp : port_path outputs LOG_OUT = Ok (resource_path r))
      by (unfold port_path; rewrite Hl; reflexivity).
    run_cases; run_clean; try discriminate; try congruence; split; congruence.
Qed.

Lemma trainer_exception_propagates_witness :
  fst (run_my_task env_raise inputs_req settings_default outputs_req s0) = Raise TrainerError.
Proof.
  assert (Hp : prepare env_raise inputs_req settings_default outputs_req
               = Ok (prepared env_raise inputs_req settings_default outputs_req)) by reflexivity.
  apply (trainer_exception_propagates env_raise inputs_req settings_default outputs_req s0
           (prepared env_raise inputs_req settings_default outputs_req) TrainerError); [right; exists (mk_resource "run.log"), []; split; reflexivity
                            | exact Hp | reflexivity].
Defined.

(** X7: [run_my_task] either returns [True] or raises.  It returns only
    after exactly one trainer call that returned; the streams have then
    received the trainer's output followed by the closing message, all on
    the celery [LoggingProxy].  When it raises, either the trainer was not
    called and nothing has been written, or the exception is the
    trainer's own, raised after its single call and its output. *)
Theorem run_outcome E inputs settings outputs s :
  (exists c b,
     fst (run_my_task E inputs settings outputs s) = Ok true /\
     calls (snd (run_my_task E inputs settings outputs s)) = calls s ++ [c] /\
     train_msae E c = Ok b /\
     written (snd (run_my_task E inputs settings outputs s))
       = written s ++ proxied (redirect_level E) (train_prints E c) ++
         [(LoggingProxy (redirect_level E), "Finishing the Fast CM trainer job.")]) \/
  (exists e,
     fst (run_my_task E inputs settings outputs s) = Raise e /\
     ((calls (snd (run_my_task E inputs settings outputs s)) = calls s /\
       written (snd (run_my_task E inputs settings outputs s)) = written s) \/
      (exists c,
         calls (snd (run_my_task E inputs settings outputs s)) = calls s ++ [c] /\
         train_msae E c = Raise e /\
         written (snd (run_my_task E inputs settings outputs s))
           = written s ++ proxied (redirect_level E) (train_prints E c)))).
Proof.
  run_cases; rewrite ?(train_output_proxied (redirect_level E)) by reflexivity;
    first [ left; eexists _, _;
            split; [reflexivity | split; [reflexivity | split; [eassumption |]]];
            rewrite <- app_assoc; reflexivity
          | right; eexists; split; [reflexivity | left; split; reflexivity]
          | right; eexists; split;
            [reflexivity | right; eexists; split; [reflexivity | split; [eassumption | reflexivity]]] ].
Qed.

(** X8: the model paths passed to the trainer are the first resource
    paths of the output ports: ['background'] and ['symbols'] from the
    background and symbol model ports, ['staff'] (['text']) from the
    staff (text) model port when that port is a key of [outputs], and
    absent otherwise. *)
Theorem output_paths_values E inputs settings outputs s c :
  calls (snd (run_my_task E inputs settings outputs s)) = calls s ++ [c] ->
  (exists p, port_path outputs "Background Model" = Ok p /\
             dict_get (tc_output_path c) "background" = Some p) /\
  (exists p, port_path outputs "Music Symbol Model" = Ok p /\
             dict_get (tc_output_path c) "symbols" = Some p) /\
  (In STAFF_OUT (keys outputs) ->
     exists p, port_path outputs STAFF_OUT = Ok p /\ dict_get (tc_output_path c) "staff" = Some p) /\
  (~ In STAFF_OUT (keys outputs) -> dict_get (tc_output_path c) "staff" = None) /\
  (In TEXT_OUT (keys outputs) ->
     exists p, port_path outputs TEXT_OUT = Ok p /\ dict_get (tc_output_path c) "text" = Some p) /\
  (~ In TEXT_OUT (keys outputs) -> dict_get (tc_output_path c) "text" = None).
Proof.
  intros Hc. apply run_call_prepare in Hc.
  destruct (prepare_inv _ _ _ _ _ Hc)
    as (p_image & rm & sym & bgm & p_bgm & p_sym & _ & _ & _ & _ & _ & _ & _ & _ &
        _ & _ & Hpb & Hps & _ & Homp).
  assert (Hs := outputs_loop_present_staff _ _ _ _ Homp).
  assert (Ht := outputs_loop_present_text _ _ _ _ Homp).
  cbn [dict_get String.eqb Ascii.eqb Bool.eqb] in Hs, Ht.
  repeat split.
  - exists p_bgm. split; [exact Hpb|].
    rewrite (outputs_loop_other _ _ _ _ _ Homp); [reflexivity | discriminate | discriminate].
  - exists p_sym. split; [exact Hps|].
    rewrite (outputs_loop_other _ _ _ _ _ Homp); [reflexivity | discriminate | discriminate].
  - intros Hin. destruct (dict_get (tc_output_path c) "staff") as [p|] eqn:Hm.
    + destruct (outputs_loop_val_staff _ _ _ _ _ Homp Hm) as [Hd|Hd]; [discriminate|eauto].
    + exfalso. apply (proj2 Hs); auto.
  - intros Hnin. destruct (dict_get (tc_output_path c) "staff") eqn:Hm; [|reflexivity].
    exfalso. destruct (proj1 Hs) as [Hx|Hx]; [congruence | apply Hx; reflexivity | exact (Hnin Hx)].
  - intros Hin. destruct (dict_get (tc_output_path c) "text") as [p|] eqn:Hm.
    + destruct (outputs_loop_val_text _ _ _ _ _ Homp Hm) as [Hd|Hd]; [discriminate|eauto].
    + exfalso. apply (proj2 Ht); auto.
  - intros Hnin. destruct (dict_get (tc_output_path c) "text") eqn:Hm; [|reflexivity].
    exfalso. destruct (proj1 Ht) as [Hx|Hx]; [congruence | apply Hx; reflexivity | exact (Hnin Hx)].
Qed.

Lemma output_paths_values_witness :
  exists p, port_path outputs_staff STAFF_OUT = Ok p /\
    dict_get (tc_output_path (prepared env_fail inputs_req settings_default outputs_staff)) "staff"
      = Some p.
Proof.
  assert (Hc : calls (snd (run_my_task env_fail inputs_req settings_default outputs_staff s0))
               = calls s0 ++ [prepared env_fail inputs_req settings_default outputs_staff])
    by reflexivity.
  destruct (output_paths_values _ _ _ _ _ _ Hc) as (_ & _ & Hs & _).
  apply Hs. apply in_keys_get. vm_compute. discriminate.
Defined.

Lemma bidx_lt d i : i < d -> bidx d i = i.
Proof. unfold bidx. destruct (Nat.eqb_spec d 1); lia. Qed.

(** X9: when the symbols layer and the selected-regions layer decode to
    images of one size, the symbols ground truth passed to the trainer
    has that size, and a pixel is true exactly when the alpha values of
    both layers there equal 255 (an alpha of 254 does not count). *)
Theorem symbols_gt_pointwise E inputs settings outputs s c pn pr ni ri :
  calls (snd (run_my_task E inputs settings outputs s)) = calls s ++ [c] ->
  port_path inputs SYMBOLS_IN = Ok pn -> imread E pn IMREAD_UNCHANGED = Some ni ->
  port_path inputs REGIONS_IN = Ok pr -> imread E pr IMREAD_UNCHANGED = Some ri ->
  img_h ni = img_h ri -> img_w ni = img_w ri ->
  exists m, dict_get (tc_gt c) "symbols" = Some m /\
    nd_h m = img_h ri /\ nd_w m = img_w ri /\
    forall i j, i < img_h ri -> j < img_w ri ->
      nd_at m i j = Z.eqb (img_px ni i j 3) 255 && Z.eqb (img_px ri i j 3) 255.
Proof.
  intros Hc Hpn Hni Hpr Hri Hh Hw. apply run_call_prepare in Hc.
  destruct (prepare_inv _ _ _ _ _ Hc)
    as (p_image & rm & sym & bgm & p_bgm & p_sym & _ & _ & Hsel & Hsym & _ & _ & _ & _ & _ & _ &
        _ & _ & Hgt & _).
  unfold selection_mask, layer_mask in Hsel. rewrite Hpr in Hsel. cbn [rbind] in Hsel.
  rewrite Hri in Hsel. unfold alpha_opaque, channel in Hsel.
  destruct (Nat.ltb 3 (img_ch ri)); cbn [rbind] in Hsel; [injection Hsel as <- | discriminate].
  unfold restricted_mask, layer_mask in Hsym. rewrite Hpn in Hsym. cbn [rbind] in Hsym.
  rewrite Hni in Hsym. unfold alpha_opaque, channel in Hsym.
  destruct (Nat.ltb 3 (img_ch ni)); cbn [rbind] in Hsym; [|discriminate].
  unfold logical_and, bdim, nd_eq in Hsym. cbn [nd_h nd_w] in Hsym.
  rewrite Hh, Hw, !Nat.eqb_refl in Hsym. injection Hsym as <-.
  eexists. split.
  { rewrite (inputs_loop_other _ _ _ _ _ _ _ Hgt); [reflexivity | discriminate | discriminate]. }
  cbn [nd_h nd_w nd_at]. split; [reflexivity | split; [reflexivity |]].
  intros i j Hi Hj. unfold bget. cbn [nd_h nd_w nd_at].
  rewrite !bidx_lt by assumption. reflexivity.
Qed.

Lemma symbols_gt_pointwise_witness :
  exists m, dict_get (tc_gt staff_call) "symbols" = Some m /\
    nd_h m = 2 /\ nd_w m = 2 /\
    forall i j, i < 2 -> j < 2 -> nd_at m i j = true.
Proof.
  assert (Hc : calls (snd (run_my_task env_fail inputs_staff settings_default outputs_req s0))
               = calls s0 ++ [staff_call]) by reflexivity.
  exact (symbols_gt_pointwise env_fail inputs_staff settings_default outputs_req s0 staff_call
           "sym" "reg" (opaque_img 2 2) (opaque_img 2 2)
           Hc eq_refl eq_refl eq_refl eq_refl eq_refl eq_refl).
Defined.

(** The loop over [inputs] reads images only with [cv2.IMREAD_UNCHANGED]. *)
Section EnvExt.
Variables (E E' : env) (inputs : dict (list resource)) (rm : ndarray bool).
Hypothesis Hq : forall q, imread E q IMREAD_UNCHANGED = imread E' q IMREAD_UNCHANGED.

Lemma layer_mask_ext port : layer_mask E inputs port = layer_mask E' inputs port.
Proof.
  unfold layer_mask. destruct (port_path inputs port); cbn [rbind]; [rewrite Hq|]; reflexivity.
Qed.

Lemma restricted_mask_ext port :
  restricted_mask E inputs rm port = restricted_mask E' inputs rm port.
Proof. unfold restricted_mask. rewrite layer_mask_ext. reflexivity. Qed.

Lemma inputs_loop_ext ks gt :
  inputs_loop E inputs rm ks gt = inputs_loop E' inputs rm ks gt.
Proof.
  revert gt; induction ks as [|k ks IH]; intros gt; cbn [inputs_loop]; [reflexivity|].
  rewrite !staff_step_eq, restricted_mask_ext.
  destruct (set_step _ "staff" _ _); cbn [rbind]; [|reflexivity].
  rewrite !text_step_eq, restricted_mask_ext.
  destruct (set_step _ "text" _ _); cbn [rbind]; [apply IH|reflexivity].
Qed.

End EnvExt.

Lemma prepare_without_image E inputs settings outputs c p :
  prepare E inputs settings outputs = Ok c ->
  port_path inputs "Image" = Ok p ->
  prepare (env_without_image E p) inputs settings outputs
    = Ok (mk_call None (tc_gt c) (tc_height c) (tc_width c) (tc_output_path c)
            (tc_epochs c) (tc_max_samples_per_class c) (tc_batch_size c)).
Proof.
  intros Hp Hi.
  assert (Hq : forall q, imread (env_without_image E p) q IMREAD_UNCHANGED
                         = imread E q IMREAD_UNCHANGED) by reflexivity.
  assert (Hn : imread (env_without_image E p) p IMREAD_COLOR = None).
  { cbn. rewrite String.eqb_refl. reflexivity. }
  unfold prepare in Hp |- *.
  rewrite Hi in Hp |- *. cbn [rbind] in Hp |- *. rewrite Hn.
  repeat (lazymatch type of Hp with
          | rbind ?x _ = _ =>
              destruct x eqn:?; cbn [rbind] in Hp |- *; [|discriminate];
              rewrite ?Hq, ?(inputs_loop_ext _ _ _ _ Hq)
          end).
  injection Hp as <-. reflexivity.
Qed.

(** X10: the base image is never checked: if it cannot be decoded
    ([cv2.imread] returns [None]) while everything else is as in a run
    that reaches the trainer, the trainer is still called, with [None]
    as [input_image] and otherwise the same arguments. *)
Theorem unreadable_base_image_not_detected E inputs settings outputs s c p :
  (getitem outputs LOG_OUT = Ok [] \/
   exists r rest, getitem outputs LOG_OUT = Ok (r :: rest) /\ can_open E (resource_path r) = true) ->
  prepare E inputs settings outputs = Ok c ->
  port_path inputs "Image" = Ok p ->
  calls (snd (run_my_task (env_without_image E p) inputs settings outputs s))
    = calls s ++ [mk_call None (tc_gt c) (tc_height c) (tc_width c) (tc_output_path c)
                    (tc_epochs c) (tc_max_samples_per_class c) (tc_batch_size c)].
Proof.
  intros Hlog Hp Hi. apply run_call_made; [exact Hlog | apply prepare_without_image; assumption].
Qed.

Lemma unreadable_base_image_not_detected_witness :
  exists c, calls (snd (run_my_task (env_without_image env_fail "img") inputs_req settings_default
                         outputs_req s0)) = [c] /\ tc_input_image c = None.
Proof.
  assert (Hp : prepare env_fail inputs_req settings_default outputs_req
               = Ok (prepared env_fail inputs_req settings_default outputs_req)) by reflexivity.
  eexists. split.
  - exact (unreadable_base_image_not_detected env_fail inputs_req settings_default outputs_req s0
             _ "img" (or_intror (ex_intro _ (mk_resource "run.log") (ex_intro _ [] (conj eq_refl eq_refl))))
             Hp eq_refl).
  - reflexivity.
Defined.
